(** * perfume_Store: GTIN scraper and Shopify uploader ([src/app.py])

    A shallow embedding of the pipeline of [app.py]: the DataFrame that
    [pd.read_csv] hands to [main], the two scraping helpers
    [fetch_product_link] and [fetch_product_details], the Shopify helpers
    [upload_product], [update_product_price] and [deactivate_product], the
    two phases of [main] (scrape, upload), and the CSV export and import
    around them.

    Python values are an inductive type [pyval]; floats are IEEE binary64
    ([PrimFloat]); the outside world (the Deloox web site, the HTML parser,
    the Shopify REST API) is a state [W] with transition functions given by
    type classes; exceptions and the observable calls are threaded through a
    small state-and-exception monad [M]. *)

From Stdlib Require Import ZArith String Ascii List Bool Lia.
From Stdlib Require Import PrimFloat FloatOps SpecFloat DecimalString DecimalZ.
From stdpp Require Import base option list strings.

Open Scope string_scope.
Open Scope list_scope.
Open Scope Z_scope.

(** ** Python values *)

(** The cells of a DataFrame column and the arguments passed around in
    [main]. [PyFloat nan] is pandas' missing value. *)
Inductive pyval : Type :=
  | PyNone
  | PyBool (b : bool)
  | PyInt (z : Z)
  | PyFloat (f : float)
  | PyStr (s : string).

(** Exceptions: the class decides which [except] clause catches it,
    [str(e)] is the message. *)
Inductive exn_class : Type :=
  | RequestException | KeyError | ValueError | TypeError
  | IndexError | OverflowError | OtherException.

Record exn : Type := Exn { exn_cls : exn_class; exn_msg : string }.

Definition is_request_exception (e : exn) : bool :=
  match exn_cls e with RequestException => true | _ => false end.

(** Text of floats is left to the runtime: [str(f)] (also used by
    [to_csv]), [float(s)], and the float parser of [read_csv]. *)
Class FloatText : Type := {
  float_str : float -> string;
  float_of_str : string -> option float;
  csv_float_of_str : string -> option float
}.

Definition Z_str (z : Z) : string := NilZero.string_of_int (Z.to_int z).

(** [str(v)] *)
Definition py_str `{FloatText} (v : pyval) : string :=
  match v with
  | PyNone => "None"
  | PyBool true => "True"
  | PyBool false => "False"
  | PyInt z => Z_str z
  | PyFloat f => float_str f
  | PyStr s => s
  end.

(** Truth value of a Python object, as tested by [if x:]. *)
Definition py_truthy (v : pyval) : bool :=
  match v with
  | PyNone => false
  | PyBool b => b
  | PyInt z => negb (z =? 0)
  | PyFloat f => negb (PrimFloat.eqb f 0%float)
  | PyStr s => negb (String.eqb s "")
  end.

(** [pd.isna(v)] / [not pd.notnull(v)] on a scalar. *)
Definition pd_isna (v : pyval) : bool :=
  match v with
  | PyNone => true
  | PyFloat f => PrimFloat.is_nan f
  | _ => false
  end.

Definition pd_notnull (v : pyval) : bool := negb (pd_isna v).

(** *** [str.strip()] (ASCII white space: TAB..CR, FS..US, SPACE) *)

Definition is_space (c : ascii) : bool :=
  let n := nat_of_ascii c in
  ((9 <=? n)%nat && (n <=? 13)%nat) || ((28 <=? n)%nat && (n <=? 32)%nat).

Fixpoint lstrip (s : string) : string :=
  match s with
  | String c s' => if is_space c then lstrip s' else s
  | EmptyString => EmptyString
  end.

Fixpoint rstrip (s : string) : string :=
  match s with
  | EmptyString => EmptyString
  | String c s' =>
      match rstrip s' with
      | EmptyString => if is_space c then EmptyString else String c EmptyString
      | r => String c r
      end
  end.

Definition strip (s : string) : string := rstrip (lstrip s).

(** *** [repr] of a string and of a list of strings

    Python quotes with ['] unless the text holds a ['] and no double quote;
    backslash, the quote and control characters are escaped. Bytes above 127
    (UTF-8 text) are taken as printable. *)

Definition dquote : ascii := ascii_of_nat 34.
Definition squote : ascii := ascii_of_nat 39.
Definition backslash : ascii := ascii_of_nat 92.

Fixpoint contains_char (c : ascii) (s : string) : bool :=
  match s with
  | EmptyString => false
  | String d s' => Ascii.eqb c d || contains_char c s'
  end.

Definition hex_digit (n : nat) : ascii :=
  ascii_of_nat (if (n <? 10)%nat then 48 + n else 87 + n).

Definition repr_char (q c : ascii) : string :=
  let n := nat_of_ascii c in
  if Ascii.eqb c backslash then String backslash (String backslash EmptyString)
  else if Ascii.eqb c q then String backslash (String q EmptyString)
  else if (n =? 9)%nat then String backslash "t"
  else if (n =? 10)%nat then String backslash "n"
  else if (n =? 13)%nat then String backslash "r"
  else if ((n <? 32)%nat || (n =? 127)%nat)%bool then
    String backslash (String "x" (String (hex_digit (n / 16)) (String (hex_digit (n mod 16)) EmptyString)))
  else String c EmptyString.

Fixpoint repr_body (q : ascii) (s : string) : string :=
  match s with
  | EmptyString => EmptyString
  | String c s' => repr_char q c +:+ repr_body q s'
  end.

Definition py_repr_str (s : string) : string :=
  let q := if (contains_char squote s && negb (contains_char dquote s))%bool
           then dquote else squote in
  String q (repr_body q s) +:+ String q EmptyString.

Fixpoint join (sep : string) (l : list string) : string :=
  match l with
  | [] => EmptyString
  | [x] => x
  | x :: l' => x +:+ sep +:+ join sep l'
  end.

(** [str(l)] for a list of strings. *)
Definition py_str_list (l : list string) : string :=
  "[" +:+ join ", " (map py_repr_str l) +:+ "]".

(** *** Numeric conversions *)

(** [float(z)] for a Python or numpy integer: round to nearest even. *)
Definition Z_to_float (z : Z) : float :=
  SF2Prim (binary_normalize prec emax z 0 false).

(** Integer part of a float, towards zero; [None] for nan and infinities. *)
Definition float_trunc (f : float) : option Z :=
  match Prim2SF f with
  | S754_zero _ => Some 0
  | S754_finite s m e =>
      let mag := match e with
                 | Z.neg p => Z.pos m / 2 ^ Z.pos p
                 | _ => Z.pos m * 2 ^ e
                 end in
      Some (if s then - mag else mag)
  | S754_infinity _ | S754_nan => None
  end.

Definition digit_val (c : ascii) : option Z :=
  let n := nat_of_ascii c in
  if ((48 <=? n)%nat && (n <=? 57)%nat) then Some (Z.of_nat (n - 48)) else None.

(** Digits of an integer literal after the sign; a single underscore is
    allowed between two digits. [prev] tells whether the previous character
    was a digit. *)
Fixpoint parse_digits (acc : Z) (prev : bool) (s : string) : option Z :=
  match s with
  | EmptyString => if prev then Some acc else None
  | String c s' =>
      match digit_val c with
      | Some d => parse_digits (10 * acc + d) true s'
      | None =>
          if (Ascii.eqb c "_" && prev)%bool then
            match s' with
            | String c' _ =>
                match digit_val c' with
                | Some _ => parse_digits acc false s'
                | None => None
                end
            | EmptyString => None
            end
          else None
      end
  end.

(** [int(s)] for a string: white space around, an optional sign, digits. *)
Definition int_of_str (s : string) : option Z :=
  match strip s with
  | String "-" r => Z.opp <$> parse_digits 0 false r
  | String "+" r => parse_digits 0 false r
  | r => parse_digits 0 false r
  end.

(** The float64 held by a cell of a numeric column (int64, float64, bool). *)
Definition numeric_value (v : pyval) : option float :=
  match v with
  | PyFloat f => Some f
  | PyInt z => Some (Z_to_float z)
  | PyBool b => Some (if b then 1%float else 0%float)
  | PyStr _ | PyNone => None
  end.

(** [int(v)] *)
Definition py_int (v : pyval) : exn + Z :=
  match v with
  | PyNone => inl (Exn TypeError "int() argument must be a string, a bytes-like object or a real number, not 'NoneType'")
  | PyBool b => inr (if b then 1 else 0)
  | PyInt z => inr z
  | PyFloat f =>
      match float_trunc f with
      | Some z => inr z
      | None =>
          if PrimFloat.is_nan f
          then inl (Exn ValueError "cannot convert float NaN to integer")
          else inl (Exn OverflowError "cannot convert float infinity to integer")
      end
  | PyStr s =>
      match int_of_str s with
      | Some z => inr z
      | None => inl (Exn ValueError ("invalid literal for int() with base 10: " +:+ py_repr_str s))
      end
  end.

(** [float(v)] *)
Definition py_float `{FloatText} (v : pyval) : exn + float :=
  match v with
  | PyNone => inl (Exn TypeError "float() argument must be a string or a real number, not 'NoneType'")
  | PyBool b => inr (if b then 1%float else 0%float)
  | PyInt z =>
      let f := Z_to_float z in
      if PrimFloat.is_infinity f
      then inl (Exn OverflowError "int too large to convert to float")
      else inr f
  | PyFloat f => inr f
  | PyStr s =>
      match float_of_str s with
      | Some f => inr f
      | None => inl (Exn ValueError ("could not convert string to float: " +:+ py_repr_str s))
      end
  end.

(** ** DataFrames

    A DataFrame is its row count (the default RangeIndex [0..nrows-1]) and
    its columns in order, each a name and one cell per row. *)

Record DataFrame : Type := mkDF {
  nrows : nat;
  cols : list (string * list pyval)
}.

Definition df_columns (df : DataFrame) : list string := map fst (cols df).

Fixpoint assoc {A} (k : string) (l : list (string * A)) : option A :=
  match l with
  | [] => None
  | (k', v) :: l' => if String.eqb k k' then Some v else assoc k l'
  end.

Fixpoint assoc_set {A} (k : string) (v : A) (l : list (string * A)) : list (string * A) :=
  match l with
  | [] => [(k, v)]
  | (k', v') :: l' =>
      if String.eqb k k' then (k, v) :: l' else (k', v') :: assoc_set k v l'
  end.

(** [col in df.columns] *)
Definition has_column (df : DataFrame) (c : string) : bool :=
  existsb (String.eqb c) (df_columns df).

(** [df[c]]: the cells of a column. *)
Definition df_col (df : DataFrame) (c : string) : option (list pyval) :=
  assoc c (cols df).

(** The cell [row[c]] of the row at position [i]. *)
Definition df_cell (df : DataFrame) (i : nat) (c : string) : option pyval :=
  df_col df c ≫= λ l, l !! i.

(** [df[c] = values]: replaces the column in place or appends it. *)
Definition df_set_col (df : DataFrame) (c : string) (vs : list pyval) : DataFrame :=
  mkDF (nrows df) (assoc_set c vs (cols df)).

(** [df.at[i, c] = v] on an existing column and row. *)
Definition df_set_at (df : DataFrame) (i : nat) (c : string) (v : pyval) : DataFrame :=
  match df_col df c with
  | Some l => mkDF (nrows df) (assoc_set c (<[i:=v]> l) (cols df))
  | None => df
  end.

(** Every column has one cell per row. *)
Definition df_wf (df : DataFrame) : Prop :=
  Forall (λ c : string * list pyval, length c.2 = nrows df) (cols df).

(** The positions visited by [df.iterrows()]. *)
Definition iterrows (df : DataFrame) : list nat := seq 0 (nrows df).

(** ** CSV export and import

    [df.to_csv(buf, index=False)] and [pd.read_csv(file)] with the defaults
    of pandas, at the level of fields: a file is its header and its records,
    each a list of field texts. Quoting, which carries a field text through
    the file unchanged, lies below this model, and column names are taken as
    distinct and not empty (pandas renames the others). *)

Record CsvFile : Type := mkCsv {
  header : list string;
  records : list (list string)
}.

(** The texts that [read_csv] takes for missing values. *)
Definition na_values : list string :=
  [""; "#N/A"; "#N/A N/A"; "#NA"; "-1.#IND"; "-1.#QNAN"; "-NaN"; "-nan";
   "1.#IND"; "1.#QNAN"; "<NA>"; "N/A"; "NA"; "NULL"; "NaN"; "None";
   "n/a"; "nan"; "null"].

Definition is_na (s : string) : bool := existsb (String.eqb s) na_values.

(** Field written for a cell: nothing for a missing value ([na_rep=""]),
    otherwise [str] of the value. *)
Definition cell_text `{!FloatText} (v : pyval) : string :=
  if pd_isna v then "" else py_str v.

Definition to_csv `{!FloatText} (df : DataFrame) : CsvFile :=
  mkCsv (df_columns df)
        (map (λ i, map (λ c : string * list pyval, cell_text (default PyNone (c.2 !! i)))
                       (cols df))
             (iterrows df)).

(** Integer fields of the reader: white space around, an optional sign,
    decimal digits, within int64. *)
Fixpoint digits_acc (acc : Z) (s : string) : option Z :=
  match s with
  | EmptyString => Some acc
  | String c s' =>
      match digit_val c with
      | Some d => digits_acc (10 * acc + d) s'
      | None => None
      end
  end.

Definition plain_digits (s : string) : option Z :=
  match s with
  | EmptyString => None
  | _ => digits_acc 0 s
  end.

Definition in_int64 (z : Z) : bool := (- 2 ^ 63 <=? z) && (z <? 2 ^ 63).

Definition csv_int_of_str (s : string) : option Z :=
  let r := match strip s with
           | String "-" r => Z.opp <$> plain_digits r
           | String "+" r => plain_digits r
           | r => plain_digits r
           end in
  match r with
  | Some z => if in_int64 z then Some z else None
  | None => None
  end.

Definition is_true_text (s : string) : bool :=
  existsb (String.eqb s) ["True"; "TRUE"; "true"].

Definition is_bool_text (s : string) : bool :=
  is_true_text s || existsb (String.eqb s) ["False"; "FALSE"; "false"].

(** Type inferred for a column from its fields: int64 when no field is
    missing and all are integers, else float64 when the present fields are
    floats, else bool, else object. *)
Inductive column_kind : Type := KInt | KFloat | KBool | KObject.

Definition infer_kind `{!FloatText} (fields : list string) : column_kind :=
  let present := List.filter (λ s, negb (is_na s)) fields in
  if forallb (λ s, negb (is_na s) && bool_decide (is_Some (csv_int_of_str s))) fields
  then KInt
  else if forallb (λ s, bool_decide (is_Some (csv_float_of_str s))) present then KFloat
  else if forallb is_bool_text present then KBool
  else KObject.

Definition import_cell `{!FloatText} (k : column_kind) (s : string) : pyval :=
  if is_na s then PyFloat nan
  else match k with
       | KInt => PyInt (default 0 (csv_int_of_str s))
       | KFloat => PyFloat (default nan (csv_float_of_str s))
       | KBool => PyBool (is_true_text s)
       | KObject => PyStr s
       end.

Definition import_column `{!FloatText} (fields : list string) : list pyval :=
  map (import_cell (infer_kind fields)) fields.

(** The fields of column [j]; a short record is filled with missing values. *)
Definition csv_column (f : CsvFile) (j : nat) : list string :=
  map (λ r : list string, default "" (r !! j)) (records f).

Definition read_csv `{!FloatText} (f : CsvFile) : exn + DataFrame :=
  match header f with
  | [] => inl (Exn OtherException "No columns to parse from file")
  | _ =>
      if forallb (λ r : list string, (length r <=? length (header f))%nat) (records f)
      then inr (mkDF (length (records f))
                     (imap (λ j name, (name, import_column (csv_column f j))) (header f)))
      else inl (Exn OtherException "Error tokenizing data")
  end.



(** ** Shopify resources *)

Record Variant : Type := mkVariant {
  v_price : float;
  v_sku : string;
  v_inventory_management : string
}.

Record Image : Type := mkImage { img_src : pyval }.

Record Product : Type := mkProduct {
  title : string;
  body_html : pyval;
  status : string;
  variants : list Variant;
  images : list Image
}.

(** Answer of the platform to [product.save()]: the new id and the inventory
    item of each variant, or the validation messages
    ([product.errors.full_messages()]). *)
Inductive save_reply : Type :=
  | Accepted (product_id : Z) (inventory_item_ids : list Z)
  | Rejected (full_messages : list string).

(** Third component of the result of [upload_product]. *)
Inductive upload_error : Type :=
  | ErrNone
  | ErrMessages (msgs : list string)
  | ErrText (msg : string).

(** [f"{error}"] *)
Definition error_str (e : upload_error) : string :=
  match e with
  | ErrNone => "None"
  | ErrMessages l => py_str_list l
  | ErrText s => s
  end.

(** ** The outside world and the monad of effects *)

Inductive http_result : Type :=
  | HttpOk (content : string)
  | HttpFail (msg : string).

(** Calls that leave the process and messages shown to the user, as far
    as the program makes them: the two scraping helpers and their requests,
    Streamlit messages and download buttons, [time.sleep], the log, and the
    calls to the platform. [EvProductDestroy] is the platform's deletion of
    a product; no function of [app.py] emits it. *)
Inductive event : Type :=
  | EvFetchLink (gtin : string)
  | EvFetchDetails (url : string)
  | EvHttpGet (url : string)
  | EvWarning (msg : string)
  | EvError (msg : string)
  | EvSleep (secs : nat)
  | EvSessionActivate (shop_url api_version api_token : string)
  | EvSessionClear
  | EvProductSave (p : Product)
  | EvProductDestroy (product_id : Z)
  | EvLocationFind
  | EvInventorySet (location_id inventory_item_id available : Z)
  | EvLogInfo (msg : string)
  | EvLogError (msg : string)
  | EvDownload (file_name : string) (data : CsvFile).

(** State of a run: the world, the events so far (oldest first), and the
    DataFrame kept in [st.session_state["dataframe"]], which Phase 2 mutates
    in place. *)
Record St (W : Type) : Type := mkSt {
  world : W;
  trace : list event;
  session : option DataFrame
}.
Arguments mkSt {W} _ _ _.
Arguments world {W} _.
Arguments trace {W} _.
Arguments session {W} _.

Inductive outcome (A : Type) : Type :=
  | Ret (a : A)
  | Raise (e : exn).
Arguments Ret {A} _.
Arguments Raise {A} _.

Definition M (W A : Type) : Type := St W -> outcome A * St W.

Section Monad.
Context {W : Type}.

Definition ret {A} (a : A) : M W A := λ s, (Ret a, s).

Definition bind {A B} (m : M W A) (k : A -> M W B) : M W B :=
  λ s, match m s with
       | (Ret a, s') => k a s'
       | (Raise e, s') => (Raise e, s')
       end.

Definition raise {A} (e : exn) : M W A := λ s, (Raise e, s).

(** [try: m  except <class> as e: h e] *)
Definition try_except {A} (m : M W A) (catches : exn -> bool) (h : exn -> M W A) : M W A :=
  λ s, match m s with
       | (Raise e, s') => if catches e then h e s' else (Raise e, s')
       | r => r
       end.

Definition emit (ev : event) : M W unit :=
  λ s, (Ret tt, mkSt (world s) (trace s ++ [ev]) (session s)).

(** A call into the world that may raise. *)
Definition call {A} (ev : event) (op : W -> (exn + A) * W) : M W A :=
  λ s, let '(r, w') := op (world s) in
       (match r with inl e => Raise e | inr a => Ret a end,
        mkSt w' (trace s ++ [ev]) (session s)).

Definition lift_res {A} (r : exn + A) : M W A :=
  match r with inl e => raise e | inr a => ret a end.

(** [st.session_state["dataframe"]] *)
Definition get_session : M W DataFrame :=
  λ s, match session s with
       | Some df => (Ret df, s)
       | None => (Raise (Exn KeyError "'dataframe'"), s)
       end.

(** [st.session_state["dataframe"] = df] *)
Definition set_session (df : DataFrame) : M W unit :=
  λ s, (Ret tt, mkSt (world s) (trace s) (Some df)).

(** An in-place update of the DataFrame held in the session state. *)
Definition update_session (f : DataFrame -> DataFrame) : M W unit :=
  λ s, match session s with
       | Some df => (Ret tt, mkSt (world s) (trace s) (Some (f df)))
       | None => (Raise (Exn KeyError "'dataframe'"), s)
       end.

(** [row[c]] inside [for idx, row in df.iterrows()]: [row] is the row of
    [df] at position [i]. *)
Definition row_get (df : DataFrame) (i : nat) (c : string) : M W pyval :=
  match df_cell df i c with
  | Some v => ret v
  | None => raise (Exn KeyError (py_repr_str c))
  end.

(** [for x in l: body x], the results collected in order. *)
Fixpoint for_each {A B} (body : A -> M W B) (l : list A) : M W (list B) :=
  match l with
  | [] => ret []
  | x :: l' => bind (body x) (λ y, bind (for_each body l') (λ ys, ret (y :: ys)))
  end.
End Monad.

Notation "'let!' x := c 'in' k" := (bind c (λ x, k))
  (at level 10, x pattern, c at level 100, k at level 200).
Notation "c >> k" := (bind c (λ _, k))
  (at level 100, k at level 200, right associativity).

Definition any_exception (e : exn) : bool := true.

(** The catalog web site: one GET, with [raise_for_status] folded in. *)
Class Web (W : Type) : Type := {
  http_get : string -> W -> http_result * W
}.

(** BeautifulSoup with [html.parser]: the parsed tree and its queries. *)
Inductive selector : Type :=
  | DivClass (cls : string)
  | DivId (id : string)
  | AClass (cls : string)
  | ImgTag.

Class HtmlParser : Type := {
  node : Type;
  parse_html : string -> exn + node;
  find : node -> selector -> option node;
  get_attr : node -> string -> option string;
  get_text_strip : node -> string
}.

(** The commerce platform. *)
Class Shop (W : Type) : Type := {
  shop_save : Product -> W -> (exn + save_reply) * W;
  shop_locations : W -> (exn + list Z) * W;
  shop_inventory_set : Z -> Z -> Z -> W -> (exn + unit) * W
}.

(** ** Helper functions for scraping *)

Definition cell_of_opt (o : option string) : pyval :=
  match o with Some s => PyStr s | None => PyNone end.

Section Scraping.
Context {W : Type} `{!Web W} `{!HtmlParser} `{!FloatText}.

(** [requests.get(url, headers=headers, timeout=10)] followed by
    [response.raise_for_status()]; yields [response.content]. *)
Definition requests_get (url : string) : M W string :=
  call (EvHttpGet url)
       (λ w, let '(r, w') := http_get url w in
             (match r with
              | HttpOk c => inr c
              | HttpFail m => inl (Exn RequestException m)
              end, w')).

Definition st_warning (msg : string) : M W unit := emit (EvWarning msg).
Definition st_error (msg : string) : M W unit := emit (EvError msg).

Definition fetch_product_link (gtin : string) : M W (option string) :=
  emit (EvFetchLink gtin) >>
  let url := "https://www.deloox.se/api/search?keyword=" +:+ gtin in
  let! response :=
    try_except (let! r := requests_get url in ret (Some r))
      is_request_exception
      (λ e, st_warning ("Error fetching data for GTIN " +:+ gtin +:+ ": " +:+ exn_msg e) >>
            ret None) in
  match response with
  | None => ret None
  | Some content =>
      try_except
        (let! soup := lift_res (parse_html content) in
         match find soup (DivClass "c-suggest-popular dx_suggest-products") with
         | None => ret None
         | Some product_container =>
             match find product_container (AClass "c-option suggested-product") with
             | None => ret None
             | Some product_link =>
                 match get_attr product_link "href" with
                 | Some href => if py_truthy (PyStr href) then ret (Some href) else ret None
                 | None => ret None
                 end
             end
         end)
        any_exception
        (λ e, st_warning ("Error parsing response for GTIN " +:+ gtin +:+ ": " +:+ exn_msg e) >>
              ret None)
  end.

Definition fetch_product_details (url : string) : M W (option string * option string) :=
  emit (EvFetchDetails url) >>
  let! response :=
    try_except (let! r := requests_get url in ret (Some r))
      is_request_exception
      (λ e, st_warning ("Error fetching product details for URL " +:+ url +:+ ": " +:+ exn_msg e) >>
            ret None) in
  match response with
  | None => ret (None, None)
  | Some content =>
      try_except
        (let! soup := lift_res (parse_html content) in
         let description_container := find soup (DivId "dx-description-container") in
         let description_text :=
           match description_container with
           | Some c => get_text_strip c
           | None => ""
           end in
         let image_container := find soup (DivClass "dx_product-image__container") in
         let image_url :=
           match image_container with
           | Some c =>
               match find c ImgTag with
               | Some img => get_attr img "src"
               | None => None
               end
           | None => None
           end in
         ret (Some description_text, image_url))
        any_exception
        (λ e, st_warning ("Error parsing product details for URL " +:+ url +:+ ": " +:+ exn_msg e) >>
              ret (None, None))
  end.

(** ** Phase 1 of [main]: scraping *)


(** Body of the scraping loop for the row at position [i]. *)
Definition scrape_row (df : DataFrame) (i : nat) : M W (option string * option string) :=
  let! g := row_get df i "GTIN" in
  let gtin := strip (py_str g) in
  let! link := fetch_product_link gtin in
  let! r :=
    match link with
    | Some l => if py_truthy (PyStr l) then fetch_product_details l else ret (None, None)
    | None => ret (None, None)
    end in
  emit (EvSleep 1) >>
  ret r.

(** Element of the list comprehension that fills the Link column. *)
Definition link_row (df : DataFrame) (i : nat) : M W (option string) :=
  let! g := row_get df i "GTIN" in
  fetch_product_link (py_str g).

(** The markup: the Python literal [1.40]. *)
Definition markup : float := 0x1.6666666666666p+0%float.

(** One cell of [column * k] for a float [k]: a numeric cell is taken as
    a float64 and multiplied; [str * float] and [None * float] raise. *)
Definition mul_cell (k : float) (v : pyval) : exn + pyval :=
  match numeric_value v with
  | Some f => inr (PyFloat (PrimFloat.mul f k))
  | None =>
      match v with
      | PyStr _ => inl (Exn TypeError "can't multiply sequence by non-int of type 'float'")
      | _ => inl (Exn TypeError "unsupported operand type(s) for *: 'NoneType' and 'float'")
      end
  end.

Fixpoint mul_column (k : float) (l : list pyval) : exn + list pyval :=
  match l with
  | [] => inr []
  | v :: l' =>
      match mul_cell k v with
      | inl e => inl e
      | inr x =>
          match mul_column k l' with
          | inl e => inl e
          | inr xs => inr (x :: xs)
          end
      end
  end.

(** [df[c] * k] *)
Definition df_col_mul (df : DataFrame) (c : string) (k : float) : M W (list pyval) :=
  match df_col df c with
  | Some l => lift_res (mul_column k l)
  | None => raise (Exn KeyError (py_repr_str c))
  end.

(** The block under the button "Scrape Data from Deloox". The lists have
    one entry per row, so the column assignments cannot fail on a length. *)
Definition phase1 (df : DataFrame) : M W DataFrame :=
  let! scraped := for_each (scrape_row df) (iterrows df) in
  let scraped_descriptions := map (λ r, cell_of_opt r.1) scraped in
  let scraped_images := map (λ r, cell_of_opt r.2) scraped in
  let! links := for_each (link_row df) (iterrows df) in
  let df := df_set_col df "Link" (map cell_of_opt links) in
  let df := df_set_col df "Description" scraped_descriptions in
  let df := df_set_col df "Image_URL" scraped_images in
  let! prices := df_col_mul df "€ Price inc. shipping" markup in
  ret (df_set_col df "Selling Price" prices).

(** Phase 1 as the design note of the specification proposes it: one
    lookup per row, its result kept for the Link column. *)
Definition scrape_row_once (df : DataFrame) (i : nat)
    : M W (option string * (option string * option string)) :=
  let! g := row_get df i "GTIN" in
  let gtin := strip (py_str g) in
  let! link := fetch_product_link gtin in
  let! r :=
    match link with
    | Some l => if py_truthy (PyStr l) then fetch_product_details l else ret (None, None)
    | None => ret (None, None)
    end in
  emit (EvSleep 1) >>
  ret (link, r).

Definition phase1_single_lookup (df : DataFrame) : M W DataFrame :=
  let! rows := for_each (scrape_row_once df) (iterrows df) in
  let scraped_descriptions := map (λ r, cell_of_opt r.2.1) rows in
  let scraped_images := map (λ r, cell_of_opt r.2.2) rows in
  let df := df_set_col df "Link" (map (λ r, cell_of_opt r.1) rows) in
  let df := df_set_col df "Description" scraped_descriptions in
  let df := df_set_col df "Image_URL" scraped_images in
  let! prices := df_col_mul df "€ Price inc. shipping" markup in
  ret (df_set_col df "Selling Price" prices).


Definition required_cols : list string :=
  ["GTIN"; "Name"; "Brand"; "Category"; "€ Price inc. shipping"; "Inventory"].

Definition missing_cols (df : DataFrame) : list string :=
  List.filter (λ c, negb (has_column df c)) required_cols.
End Scraping.

(** ** Shopify-related functions *)

Section Shopify.
Context {W : Type} `{!Shop W} `{!FloatText}.

Definition upload_result : Type := (bool * option Z * upload_error)%type.

(** [l[0]] *)
Definition first {A} (l : list A) : M W A :=
  match l with
  | x :: _ => ret x
  | [] => raise (Exn IndexError "list index out of range")
  end.

(** The product assembled before [product.save()]: title, body, status,
    one variant, and one image if [image_url] is true. *)
Definition build_product (name description : pyval) (price : float)
    (image_url : pyval) (sku : string) : Product :=
  mkProduct ("Test " +:+ py_str name) description "active"
            [mkVariant price sku "shopify"]
            (if py_truthy image_url then [mkImage image_url] else []).

(** The [try] block of [upload_product]. *)
Definition upload_product_body (name description : pyval) (price : float)
    (image_url : pyval) (sku : string) (inventory : Z) : M W upload_result :=
  let product := build_product name description price image_url sku in
  let! reply := call (EvProductSave product) (shop_save product) in
  match reply with
  | Rejected full_messages => ret (false, None, ErrMessages full_messages)
  | Accepted product_id inventory_item_ids =>
      let! inventory_item_id := first inventory_item_ids in
      let! locations := call EvLocationFind shop_locations in
      match locations with
      | [] => ret (false, None, ErrText "No locations found for inventory.")
      | location_id :: _ =>
          call (EvInventorySet location_id inventory_item_id inventory)
               (shop_inventory_set location_id inventory_item_id inventory) >>
          ret (true, Some product_id, ErrNone)
      end
  end.

Definition upload_product (name description : pyval) (price : float)
    (image_url : pyval) (sku : string) (inventory : Z) : M W upload_result :=
  try_except
    (upload_product_body name description price image_url sku inventory)
    any_exception
    (λ e, ret (false, None, ErrText (exn_msg e))).

(** ** Phase 2 of [main]: upload *)

(** The branches after the call of [upload_product] in the upload loop. *)
Definition record_upload (idx : nat) (name : pyval) (res : upload_result) : M W unit :=
  let '(success, product_id, error) := res in
  if success then
    update_session (λ s, df_set_at s idx "Product ID"
                           (match product_id with Some i => PyInt i | None => PyNone end)) >>
    update_session (λ s, df_set_at s idx "Upload Status" (PyStr "Active")) >>
    emit (EvLogInfo ("Successfully uploaded: " +:+ py_str name +:+ ", Product ID: " +:+
                     match product_id with Some i => Z_str i | None => "None" end))
  else
    update_session (λ s, df_set_at s idx "Upload Status"
                           (PyStr ("Failed: " +:+ error_str error))) >>
    emit (EvLogError ("Failed to upload product " +:+ py_str name +:+ ": " +:+ error_str error)).

(** Body of the upload loop: [row] is the row of [df] at position [idx], as
    [iterrows] read it; the updates go to the DataFrame of the session. *)
Definition upload_row (df : DataFrame) (idx : nat) : M W unit :=
  let! name := row_get df idx "Name" in
  let! d := row_get df idx "Description" in
  let description := if pd_notnull d then d else PyStr "" in
  let! sp := row_get df idx "Selling Price" in
  let! selling_price :=
    if negb (pd_isna sp) then lift_res (py_float sp) else ret 0%float in
  let! im := row_get df idx "Image_URL" in
  let image_url := if pd_notnull im then im else PyStr "" in
  let! g := row_get df idx "GTIN" in
  let sku := py_str g in
  let! inv := row_get df idx "Inventory" in
  let! inventory :=
    if negb (pd_isna inv) then lift_res (py_int inv) else ret 0 in
  let! res := upload_product name description selling_price image_url sku inventory in
  record_upload idx name res.

(** [if c not in df.columns: df[c] = v] *)
Definition ensure_column (c : string) (v : pyval) : M W unit :=
  let! df := get_session in
  if has_column df c then ret tt
  else update_session (λ s, df_set_col s c (replicate (nrows s) v)).

(** The block under the button "Upload to Shopify". *)
Definition phase2 (shop_url api_version api_token : string) : M W unit :=
  emit (EvSessionActivate shop_url api_version api_token) >>
  ensure_column "Product ID" PyNone >>
  ensure_column "Upload Status" (PyStr "Pending") >>
  let! df := get_session in
  for_each (upload_row df) (iterrows df) >>
  emit EvSessionClear >>
  let! final := get_session in
  emit (EvDownload "uploaded_data.csv" (to_csv final)).
End Shopify.

(** ** Price update and deactivation

    [update_product_price] and [deactivate_product] work on a product that
    [shopify.Product.find] loads from the platform. Nothing in [app.py]
    calls them and they show nothing to the user; their calls to the
    platform are kept in a log of their own, next to the world. *)

(** A variant and a product as the platform delivers them, with the fields
    that the two functions read or write. *)
Record RemoteVariant : Type := mkRemoteVariant {
  rv_id : Z;
  rv_price : string
}.

Record RemoteProduct : Type := mkRemoteProduct {
  rp_id : Z;
  rp_status : string;
  rp_variants : list RemoteVariant
}.

Inductive admin_call : Type :=
  | CallFind (product_id : pyval)
  | CallVariantSave (v : RemoteVariant)
  | CallProductSave (p : RemoteProduct).

(** [shop_find] is [shopify.Product.find(product_id)], whose result may be
    false. [shop_variant_save] is [variant.save()]: it answers with its
    boolean result and with the variant as the call leaves it.
    [shop_product_save] is [product.save()] of a loaded product: [None]
    when it returns true, else [product.errors.full_messages()]. *)
Class ShopAdmin (W : Type) : Type := {
  shop_find : pyval -> W -> (exn + option RemoteProduct) * W;
  shop_variant_save : RemoteVariant -> W -> (exn + bool * RemoteVariant) * W;
  shop_product_save : RemoteProduct -> W -> (exn + option (list string)) * W
}.

(** [variant.price = price] *)
Definition set_price (price : string) (v : RemoteVariant) : RemoteVariant :=
  mkRemoteVariant (rv_id v) price.

(** [product.status = status] *)
Definition set_status (status : string) (p : RemoteProduct) : RemoteProduct :=
  mkRemoteProduct (rp_id p) status (rp_variants p).

(** The product whose variants are the objects [vs]. *)
Definition with_variants (vs : list RemoteVariant) (p : RemoteProduct) : RemoteProduct :=
  mkRemoteProduct (rp_id p) (rp_status p) vs.

Section Admin.
Context {W : Type} `{!ShopAdmin W} `{!FloatText}.

(** A call to the platform, added to the log. *)
Definition invoke {A} (c : admin_call) (op : W -> (exn + A) * W)
    : M (W * list admin_call) A :=
  λ s, let '(r, w') := op (world s).1 in
       (match r with inl e => Raise e | inr a => Ret a end,
        mkSt (w', (world s).2 ++ [c]) (trace s) (session s)).

(** Body of the loop over [product.variants]: the result of
    [variant.save()] is dropped, the variant stays in the product as the
    call left it. *)
Definition save_variant (new_price : pyval) (variant : RemoteVariant)
    : M (W * list admin_call) RemoteVariant :=
  let variant := set_price (py_str new_price) variant in
  let! r := invoke (CallVariantSave variant) (shop_variant_save variant) in
  ret r.2.

Definition update_product_price (product_id new_price : pyval)
    : M (W * list admin_call) string :=
  try_except
    (let! product := invoke (CallFind product_id) (shop_find product_id) in
     match product with
     | None => ret ("Product with ID " +:+ py_str product_id +:+ " not found.")
     | Some product =>
         let! vs := for_each (save_variant new_price) (rp_variants product) in
         let product := with_variants vs product in
         let! errors := invoke (CallProductSave product) (shop_product_save product) in
         match errors with
         | None =>
             ret ("Price updated successfully to " +:+ py_str new_price +:+
                  " for product ID " +:+ py_str product_id +:+ ".")
         | Some full_messages =>
             ret ("Failed to update price for product ID " +:+ py_str product_id +:+
                  ": " +:+ py_str_list full_messages)
         end
     end)
    any_exception
    (λ e, ret ("Error: " +:+ exn_msg e)).

(** The default of the parameter [status]. *)
Definition default_status : string := "draft".

Definition deactivate_product (product_id : pyval) (status : string)
    : M (W * list admin_call) string :=
  try_except
    (let! product := invoke (CallFind product_id) (shop_find product_id) in
     match product with
     | None => ret ("Product with ID " +:+ py_str product_id +:+ " not found.")
     | Some product =>
         let product := set_status status product in
         let! errors := invoke (CallProductSave product) (shop_product_save product) in
         match errors with
         | None =>
             ret ("Product ID " +:+ py_str product_id +:+
                  " has been set to status '" +:+ status +:+ "'.")
         | Some full_messages =>
             ret ("Failed to update product ID " +:+ py_str product_id +:+
                  ": " +:+ py_str_list full_messages)
         end
     end)
    any_exception
    (λ e, ret ("Error while updating product status: " +:+ exn_msg e)).
End Admin.

(** ** The Streamlit app *)

(** What the user did before this run of the script. *)
Record UI : Type := mkUI {
  ui_shop_url : string;
  ui_api_version : string;
  ui_api_token : string;
  uploaded_file : option CsvFile;
  scrape_clicked : bool;
  upload_clicked : bool
}.

Section App.
Context {W : Type} `{!Web W} `{!HtmlParser} `{!Shop W} `{!FloatText}.

(** The block [if uploaded_file is not None]; the result tells whether
    [main] returned from inside it. *)
Definition main_file (ui : UI) (file : CsvFile) : M W bool :=
  try_except
    (let! df := lift_res (read_csv file) in
     match missing_cols df with
     | _ :: _ =>
         st_error ("Missing columns: " +:+ py_str_list (missing_cols df)) >>
         ret true
     | [] =>
         (if scrape_clicked ui then
            let! df := phase1 df in
            emit (EvDownload "scraped_data.csv" (to_csv df)) >>
            set_session df
          else ret tt) >>
         ret false
     end)
    any_exception
    (λ e, st_error ("Error reading or processing file: " +:+ exn_msg e) >>
          ret false).

Definition main (ui : UI) : M W unit :=
  let! returned :=
    match uploaded_file ui with
    | Some file => main_file ui file
    | None => ret false
    end in
  if returned then ret tt
  else λ s,
    match session s with
    | Some _ =>
        if upload_clicked ui
        then phase2 (ui_shop_url ui) (ui_api_version ui) (ui_api_token ui) s
        else (Ret tt, s)
    | None => (Ret tt, s)
    end.
End App.

(** ** A concrete world for examples

    A static web site (a table from URLs to answers), pages as small trees,
    and a shop that rejects or breaks on listed SKUs. *)

Module Demo.

#[local] Set Warnings "-register-all".

Inductive html : Type :=
  | Text (s : string)
  | Elem (tag : string) (attrs : list (string * string)) (children : list html).

Fixpoint words_aux (cur : string) (s : string) : list string :=
  match s with
  | EmptyString => match cur with EmptyString => [] | _ => [cur] end
  | String c s' =>
      if is_space c
      then match cur with EmptyString => words_aux "" s' | _ => cur :: words_aux "" s' end
      else words_aux (cur +:+ String c EmptyString) s'
  end.

Definition has_class (cls : string) (attrs : list (string * string)) : bool :=
  match assoc "class" attrs with
  | Some v => String.eqb v cls || existsb (String.eqb cls) (words_aux "" v)
  | None => false
  end.

Definition matches (sel : selector) (h : html) : bool :=
  match h with
  | Text _ => false
  | Elem t attrs _ =>
      match sel with
      | DivClass c => String.eqb t "div" && has_class c attrs
      | DivId i => String.eqb t "div" &&
                   match assoc "id" attrs with Some v => String.eqb v i | None => false end
      | AClass c => String.eqb t "a" && has_class c attrs
      | ImgTag => String.eqb t "img"
      end
  end.

(** First descendant in document order that matches. *)
Fixpoint find_in (sel : selector) (h : html) : option html :=
  match h with
  | Text _ => None
  | Elem _ _ ch =>
      (fix go (l : list html) : option html :=
         match l with
         | [] => None
         | c :: l' =>
             if matches sel c then Some c
             else match find_in sel c with
                  | Some r => Some r
                  | None => go l'
                  end
         end) ch
  end.

Fixpoint text_of (h : html) : string :=
  match h with
  | Text s => strip s
  | Elem _ _ ch =>
      (fix go (l : list html) : string :=
         match l with
         | [] => EmptyString
         | c :: l' => text_of c +:+ go l'
         end) ch
  end.

Definition html_attr (h : html) (a : string) : option string :=
  match h with
  | Text _ => None
  | Elem _ attrs _ => assoc a attrs
  end.

Definition doc (ch : list html) : html := Elem "[document]" [] ch.

Definition search_page (href : string) : html :=
  doc [Elem "div" [("class", "c-suggest-popular dx_suggest-products")]
         [Elem "a" [("class", "c-option suggested-product"); ("href", href)] [Text "hit"]]].

Definition detail_page (d src : string) : html :=
  doc [Elem "div" [("id", "dx-description-container")] [Elem "p" [] [Text d]];
       Elem "div" [("class", "gallery dx_product-image__container")]
         [Elem "img" [("src", src)] []]].

(** A page with neither a description container nor an image. *)
Definition bare_page : html := doc [Elem "h1" [] [Text "Perfume"]].

(** A page whose image container holds no image. *)
Definition no_img_page : html :=
  doc [Elem "div" [("class", "dx_product-image__container")] [Text "soon"]].

Definition pages : list (string * html) :=
  [("search:p1", search_page "https://www.deloox.se/p1");
   ("detail:p1", detail_page " D1 " "I1");
   ("search:p3", search_page "https://www.deloox.se/p3");
   ("search:bare", search_page "https://www.deloox.se/bare");
   ("detail:bare", bare_page);
   ("detail:noimg", no_img_page);
   ("search:none", doc [])].

#[export] Instance demo_parser : HtmlParser := {
  node := html;
  parse_html c :=
    if String.eqb c "broken"
    then inl (Exn OtherException "parser rejected the markup")
    else inr (default (doc []) (assoc c pages));
  find h sel := find_in sel h;
  get_attr := html_attr;
  get_text_strip := text_of
}.

Record World : Type := mkWorld {
  site : list (string * http_result);
  rejected : list (string * list string);
  broken : list string;
  locations : list Z;
  next_id : Z
}.

#[export] Instance demo_web : Web World := {
  http_get url w :=
    (default (HttpFail ("404 Client Error: Not Found for url: " +:+ url)) (assoc url (site w)), w)
}.

Definition sku_of (p : Product) : string :=
  match variants p with v :: _ => v_sku v | [] => "" end.

#[export] Instance demo_shop : Shop World := {
  shop_save p w :=
    if existsb (String.eqb (sku_of p)) (broken w)
    then (inl (Exn OtherException "Connection reset by peer"), w)
    else match assoc (sku_of p) (rejected w) with
         | Some msgs => (inr (Rejected msgs), w)
         | None =>
             (inr (Accepted (next_id w) [next_id w + 1000]),
              mkWorld (site w) (rejected w) (broken w) (locations w) (next_id w + 1))
         end;
  shop_locations w := (inr (locations w), w);
  shop_inventory_set _ _ _ w := (inr tt, w)
}.

(** Floats never need printing or parsing in the examples. *)
(** Text of floats for the examples: integral values only, as "14.0". *)
Definition demo_float_str (f : float) : string :=
  if PrimFloat.is_nan f then "nan"
  else match float_trunc f with
       | Some z => if PrimFloat.eqb (Z_to_float z) f then Z_str z +:+ ".0" else "<float>"
       | None => "inf"
       end.

Fixpoint demo_float_of_digits (acc : Z) (s : string) : option float :=
  match s with
  | String "." (String "0" EmptyString) => Some (Z_to_float acc)
  | String c s' =>
      match digit_val c with
      | Some d => demo_float_of_digits (10 * acc + d) s'
      | None => None
      end
  | EmptyString => None
  end.

#[export] Instance demo_float_text : FloatText := {
  float_str := demo_float_str;
  float_of_str := demo_float_of_digits 0;
  csv_float_of_str := demo_float_of_digits 0
}.

Definition search_url (gtin : string) : string :=
  "https://www.deloox.se/api/search?keyword=" +:+ gtin.

Definition world0 : World :=
  mkWorld [(search_url "111", HttpOk "search:p1");
           ("https://www.deloox.se/p1", HttpOk "detail:p1");
           (search_url "222", HttpOk "search:none");
           (search_url "333", HttpOk "search:p3");
           ("https://www.deloox.se/p3", HttpFail "Read timed out.");
           (search_url " 111", HttpOk "search:none");
           (search_url "444", HttpOk "search:bare");
           ("https://www.deloox.se/bare", HttpOk "detail:bare")]
          [("222", ["title required"])] [] [7] 9000.

Definition start (w : World) : St World := mkSt w [] None.

Definition df3 : DataFrame :=
  mkDF 3 [("GTIN", [PyInt 111; PyInt 222; PyInt 333]);
          ("Name", [PyStr "Rose"; PyStr "Oud"; PyStr "Musk"]);
          ("Brand", [PyStr "A"; PyStr "B"; PyStr "C"]);
          ("Category", [PyStr "EDP"; PyStr "EDT"; PyStr "EDP"]);
          ("€ Price inc. shipping", [PyFloat 10%float; PyFloat nan; PyFloat 0%float]);
          ("Inventory", [PyFloat 5%float; PyFloat nan; PyFloat 2%float])].

(** A table whose identifiers are text, one of them with a leading space. *)
Definition df_space : DataFrame :=
  mkDF 2 [("GTIN", [PyStr " 111"; PyStr "ABC"]);
          ("Name", [PyStr "Rose"; PyStr "Oud"]);
          ("Brand", [PyStr "A"; PyStr "B"]);
          ("Category", [PyStr "EDP"; PyStr "EDT"]);
          ("€ Price inc. shipping", [PyFloat 10%float; PyFloat 20%float]);
          ("Inventory", [PyInt 5; PyInt 1])].

(** A table whose inventory column is text: one cell is not a number, so
    [read_csv] keeps every cell of the column as a string. *)
Definition df_bad : DataFrame :=
  mkDF 3 [("GTIN", [PyInt 111; PyInt 222; PyInt 333]);
          ("Name", [PyStr "Rose"; PyStr "Oud"; PyStr "Musk"]);
          ("Brand", [PyStr "A"; PyStr "B"; PyStr "C"]);
          ("Category", [PyStr "EDP"; PyStr "EDT"; PyStr "EDP"]);
          ("€ Price inc. shipping", [PyFloat 10%float; PyFloat 20%float; PyFloat 30%float]);
          ("Inventory", [PyStr "5"; PyStr "abc"; PyStr "2"])].



(** A file without the columns "Brand" and "Inventory". *)
Definition df_nobrand : DataFrame :=
  mkDF 1 [("GTIN", [PyInt 111]); ("Name", [PyStr "Rose"]);
          ("Category", [PyStr "EDP"]);
          ("€ Price inc. shipping", [PyFloat 10%float])].

(** The table of [df3] after Phase 1 in [world0], and the same table once
    Phase 2 has added its two columns. *)
Definition scraped3 : DataFrame :=
  Eval vm_compute in
    match (phase1 df3 (start world0)).1 with Ret d => d | Raise _ => df3 end.

Definition pending3 : DataFrame :=
  df_set_col (df_set_col scraped3 "Product ID" (replicate 3 PyNone))
             "Upload Status" (replicate 3 (PyStr "Pending")).

(** A shop whose connection breaks on the SKU "111". *)
Definition world_broken : World :=
  mkWorld (site world0) [] ["111"] [7] 9000.

(** A shop without any fulfillment location. *)
Definition world_noloc : World :=
  mkWorld (site world0) [] [] [] 9000.
End Demo.

(** A file whose costs are written with a decimal comma: [read_csv] keeps
    the column as text. *)
Definition df_comma : DataFrame :=
  mkDF 2 [("GTIN", [PyInt 111; PyInt 222]);
          ("Name", [PyStr "Rose"; PyStr "Oud"]);
          ("Brand", [PyStr "A"; PyStr "B"]);
          ("Category", [PyStr "EDP"; PyStr "EDT"]);
          ("€ Price inc. shipping", [PyStr "10,50"; PyStr "12,00"]);
          ("Inventory", [PyInt 5; PyInt 1])].

(** ** A concrete shop for the price update and the deactivation

    The shop holds some products. Saving a variant raises for the variants
    listed in [locked] and is refused, without an exception, when the price
    is empty or negative; saving a product is refused when its status is
    not one of the three that the platform knows. *)

Module DemoAdmin.

Record World : Type := mkWorld {
  store : list RemoteProduct;
  locked : list Z;
  requests : nat
}.

Definition tick (w : World) : World :=
  mkWorld (store w) (locked w) (S (requests w)).

Definition price_ok (price : string) : bool :=
  match price with
  | EmptyString => false
  | String c _ => negb (Ascii.eqb c "-")
  end.

Definition status_ok (status : string) : bool :=
  existsb (String.eqb status) ["active"; "draft"; "archived"].

#[export] Instance demo_admin : ShopAdmin World := {
  shop_find product_id w :=
    match product_id with
    | PyInt i =>
        match List.find (λ p, Z.eqb (rp_id p) i) (store w) with
        | Some p => (inr (Some p), tick w)
        | None => (inl (Exn OtherException "Not Found"), tick w)
        end
    | _ =>
        match store w with
        | [] => (inr None, tick w)
        | _ :: _ => (inl (Exn OtherException "Bad Request"), tick w)
        end
    end;
  shop_variant_save v w :=
    if existsb (Z.eqb (rv_id v)) (locked w)
    then (inl (Exn OtherException "Too Many Requests"), tick w)
    else (inr (price_ok (rv_price v), v), tick w);
  shop_product_save p w :=
    if status_ok (rp_status p) then (inr None, tick w)
    else (inr (Some ["Status is invalid"]), tick w)
}.

Definition rose : RemoteProduct :=
  mkRemoteProduct 9000 "active"
    [mkRemoteVariant 1 "14.0"; mkRemoteVariant 2 "15.0"; mkRemoteVariant 3 "16.0"].

Definition shop0 : World := mkWorld [rose] [] 0.

(** The same shop when the second variant cannot be saved. *)
Definition shop_locked : World := mkWorld [rose] [2] 0.

(** A shop without products. *)
Definition shop_empty : World := mkWorld [] [] 0.

Definition start (w : World) : St (World * list admin_call) := mkSt (w, []) [] None.
End DemoAdmin.

(** ** Notions used in the statements *)

(** The arguments that the upload loop passes to [upload_product] for the
    row at position [idx], when every cell is there and the conversions of
    the price and of the inventory succeed. *)
Definition row_ready `{!FloatText} (df : DataFrame) (idx : nat)
    (name description : pyval) (price : float) (image_url : pyval)
    (sku : string) (qty : Z) : Prop :=
  ∃ d sp im g inv,
    df_cell df idx "Name" = Some name ∧
    df_cell df idx "Description" = Some d ∧
    description = (if pd_notnull d then d else PyStr "") ∧
    df_cell df idx "Selling Price" = Some sp ∧
    (if negb (pd_isna sp) then py_float sp else inr 0%float) = inr price ∧
    df_cell df idx "Image_URL" = Some im ∧
    image_url = (if pd_notnull im then im else PyStr "") ∧
    df_cell df idx "GTIN" = Some g ∧
    sku = py_str g ∧
    df_cell df idx "Inventory" = Some inv ∧
    (if negb (pd_isna inv) then py_int inv else inr 0) = inr qty.

(** The session DataFrame after the outcome [res] of a row was recorded. *)
Definition recorded (sess : DataFrame) (idx : nat) (res : upload_result) : DataFrame :=
  let '(success, product_id, error) := res in
  if success then
    df_set_at
      (df_set_at sess idx "Product ID"
         (match product_id with Some i => PyInt i | None => PyNone end))
      idx "Upload Status" (PyStr "Active")
  else
    df_set_at sess idx "Upload Status" (PyStr ("Failed: " +:+ error_str error)).

(** An outcome was recorded in a status cell: "Active", or "Failed: "
    followed by the text of the error. *)
Definition status_recorded (v : option pyval) : Prop :=
  v = Some (PyStr "Active") ∨ ∃ e, v = Some (PyStr ("Failed: " +:+ error_str e)).

(** Every row of the table can be handed to [upload_product]. *)
Definition rows_ready `{!FloatText} (df : DataFrame) : Prop :=
  ∀ i, (i < nrows df)%nat →
    ∃ name description price image_url sku qty,
      row_ready df i name description price image_url sku qty.

(** The session DataFrame after [if c not in df.columns: df[c] = v]. *)
Definition ensured (sess : DataFrame) (c : string) (v : pyval) : DataFrame :=
  if has_column sess c then sess else df_set_col sess c (replicate (nrows sess) v).

(** Kinds of events. *)
Definition is_fetch_link (ev : event) : bool :=
  match ev with EvFetchLink _ => true | _ => false end.

Definition is_fetch_details (ev : event) : bool :=
  match ev with EvFetchDetails _ => true | _ => false end.

(** Number of calls of [fetch_product_link] / [fetch_product_details]
    among some events. *)
Definition lookups (evs : list event) : nat := length (List.filter is_fetch_link evs).

Definition scrapes (evs : list event) : nat := length (List.filter is_fetch_details evs).

(** The events added between two states of one run. *)
Definition new_events {W} (s s' : St W) : list event :=
  drop (length (trace s)) (trace s').

(** A numeric column: int64, float64 or bool cells. *)
Definition numeric_column (df : DataFrame) (c : string) : Prop :=
  ∃ l, df_col df c = Some l ∧ Forall (λ v, is_Some (numeric_value v)) l.

(** The table that Phase 1 builds from the results of its two loops and
    the markup column. *)
Definition phase1_table (df : DataFrame) (scraped : list (option string * option string))
    (links : list (option string)) (prices : list pyval) : DataFrame :=
  df_set_col
    (df_set_col
       (df_set_col
          (df_set_col df "Link" (map cell_of_opt links))
          "Description" (map (λ r, cell_of_opt r.1) scraped))
       "Image_URL" (map (λ r, cell_of_opt r.2) scraped))
    "Selling Price" prices.

(** Text of the identifier of a row, as [str(row["GTIN"])]. *)
Definition gtin_text `{!FloatText} (df : DataFrame) (i : nat) : string :=
  match df_cell df i "GTIN" with Some g => py_str g | None => "" end.

Definition is_destroy (ev : event) : bool :=
  match ev with EvProductDestroy _ => true | _ => false end.

Definition is_session_clear (ev : event) : bool :=
  match ev with EvSessionClear => true | _ => false end.

Definition is_save (ev : event) : bool :=
  match ev with EvProductSave _ => true | _ => false end.

(** Number of calls of [product.save()] among some events. *)
Definition saves (evs : list event) : nat := length (List.filter is_save evs).


Fixpoint all_chars (p : ascii → bool) (s : string) : bool :=
  match s with
  | EmptyString => true
  | String c s' => p c && all_chars p s'
  end.

Definition is_digit (c : ascii) : bool := bool_decide (is_Some (digit_val c)).

(** Counting events of a kind. *)
Definition count_events (p : event → bool) (evs : list event) : nat :=
  length (List.filter p evs).

Definition is_http_get (ev : event) : bool :=
  match ev with EvHttpGet _ => true | _ => false end.

Definition is_warning (ev : event) : bool :=
  match ev with EvWarning _ => true | _ => false end.

Definition is_sleep (ev : event) : bool :=
  match ev with EvSleep _ => true | _ => false end.

Definition is_inventory_set (ev : event) : bool :=
  match ev with EvInventorySet _ _ _ => true | _ => false end.

(** Events of the commerce platform and of its session. *)
Definition is_shop_event (ev : event) : bool :=
  match ev with
  | EvSessionActivate _ _ _ | EvSessionClear | EvProductSave _
  | EvProductDestroy _ | EvLocationFind | EvInventorySet _ _ _ => true
  | _ => false
  end.

(** The search address that [fetch_product_link] requests for an identifier. *)
Definition search_endpoint (gtin : string) : string :=
  "https://www.deloox.se/api/search?keyword=" +:+ gtin.

(** The columns that Phase 1 writes. *)
Definition derived_cols : list string :=
  ["Link"; "Description"; "Image_URL"; "Selling Price"].

(** Events of one iteration of the scraping loop. *)
Definition row_events_ok (evs : list event) : Prop :=
  count_events is_sleep evs = 1%nat ∧
  (1 ≤ count_events is_http_get evs ≤ 2)%nat ∧
  count_events is_shop_event evs = 0%nat.

(** Events of one element of the Link column. *)
Definition link_events_ok (evs : list event) : Prop :=
  count_events is_sleep evs = 0%nat ∧
  count_events is_http_get evs = 1%nat ∧
  count_events is_shop_event evs = 0%nat.

(** Opening or closing the platform session. *)
Definition is_session_event (ev : event) : bool :=
  match ev with EvSessionActivate _ _ _ | EvSessionClear => true | _ => false end.

(** Events of one iteration of the upload loop: one [product.save()], no
    deletion, nothing about the session. *)
Definition upload_events_ok (evs : list event) : Prop :=
  saves evs = 1%nat ∧
  count_events is_destroy evs = 0%nat ∧
  count_events is_session_event evs = 0%nat.

(** Every cell of the inventory column is missing or can be converted by
    [int]. *)
Definition inventory_ready (df : DataFrame) : Prop :=
  ∀ i v, df_cell df i "Inventory" = Some v → pd_isna v = true ∨ ∃ q, py_int v = inr q.

(** The log of the calls of [update_product_price] and
    [deactivate_product], and the calls added between two states. *)
Definition calls {W} (s : St (W * list admin_call)) : list admin_call := (world s).2.

Definition new_calls {W} (s s' : St (W * list admin_call)) : list admin_call :=
  drop (length (calls s)) (calls s').

(** The calls that save the variants [vs], each with the price [price]. *)
Definition variant_saves (price : string) (vs : list RemoteVariant) : list admin_call :=
  map (λ v, CallVariantSave (set_price price v)) vs.

(** [f"Product with ID {product_id} not found."] *)
Definition not_found_message `{!FloatText} (product_id : pyval) : string :=
  "Product with ID " +:+ py_str product_id +:+ " not found.".

(** * Properties *)

(** ** Association lists and DataFrames *)

Lemma assoc_set_eq {A} k (v : A) l : assoc k (assoc_set k v l) = Some v.
Proof.
  induction l as [|[k' v'] l IH]; simpl.
  - by rewrite String.eqb_refl.
  - destruct (String.eqb k k') eqn:E; simpl.
    + by rewrite String.eqb_refl.
    + by rewrite E.
Qed.

Lemma assoc_set_ne {A} k k' (v : A) l :
  k ≠ k' → assoc k (assoc_set k' v l) = assoc k l.
Proof.
  intros Hne. induction l as [|[k2 v2] l IH]; simpl.
  - destruct (String.eqb k k') eqn:E; [|done].
    apply String.eqb_eq in E. done.
  - destruct (String.eqb k' k2) eqn:E'; simpl.
    + apply String.eqb_eq in E'. subst k2.
      destruct (String.eqb k k') eqn:E; [|done].
      apply String.eqb_eq in E. done.
    + by rewrite IH.
Qed.

Lemma assoc_existsb {A} k (l : list (string * A)) :
  existsb (String.eqb k) (map fst l) = true → ∃ v, assoc k l = Some v.
Proof.
  induction l as [|[k' v'] l IH]; simpl; [done|].
  destruct (String.eqb k k'); simpl; eauto.
Qed.

Lemma assoc_elem_of {A} k (v : A) l : assoc k l = Some v → (k, v) ∈ l.
Proof.
  induction l as [|[k' v'] l IH]; simpl; [done|].
  destruct (String.eqb k k') eqn:E.
  - apply String.eqb_eq in E. intros [= ->]. subst. left.
  - intros Hs. right. auto.
Qed.

Lemma df_col_set_eq df c vs : df_col (df_set_col df c vs) c = Some vs.
Proof. apply assoc_set_eq. Qed.

Lemma df_col_set_ne df c c' vs :
  c ≠ c' → df_col (df_set_col df c' vs) c = df_col df c.
Proof. apply assoc_set_ne. Qed.

Lemma df_cell_set_eq df c vs i : df_cell (df_set_col df c vs) i c = vs !! i.
Proof. unfold df_cell. by rewrite df_col_set_eq. Qed.

Lemma df_cell_set_ne df c c' vs i :
  c ≠ c' → df_cell (df_set_col df c' vs) i c = df_cell df i c.
Proof. intros. unfold df_cell. by rewrite df_col_set_ne. Qed.

Lemma has_column_col df c :
  has_column df c = true → ∃ l, df_col df c = Some l.
Proof. apply assoc_existsb. Qed.

Lemma df_wf_col df c l : df_wf df → df_col df c = Some l → length l = nrows df.
Proof.
  intros Hwf Hc. apply assoc_elem_of in Hc.
  unfold df_wf in Hwf. rewrite Forall_forall in Hwf. by apply Hwf in Hc.
Qed.

Lemma df_wf_cell df c i :
  df_wf df → has_column df c = true → (i < nrows df)%nat →
  ∃ v, df_cell df i c = Some v.
Proof.
  intros Hwf Hc Hi. destruct (has_column_col _ _ Hc) as [l Hl].
  unfold df_cell. rewrite Hl. simpl.
  apply lookup_lt_is_Some_2. by rewrite (df_wf_col _ _ _ Hwf Hl).
Qed.

Lemma missing_cols_nil df c :
  missing_cols df = [] → c ∈ required_cols → has_column df c = true.
Proof.
  unfold missing_cols. intros Hm Hc.
  destruct (has_column df c) eqn:E; [done|].
  assert (c ∈ List.filter (λ c, negb (has_column df c)) required_cols) as Hin.
  { apply list_elem_of_In, filter_In. split; [by apply list_elem_of_In|by rewrite E]. }
  rewrite Hm in Hin. by apply not_elem_of_nil in Hin.
Qed.

(** ** The monad *)




Ltac unfold_m :=
  unfold bind, emit, try_except, call, lift_res, raise, ret,
         get_session, set_session, update_session in *.

(** Closes a goal [∃ r evs w', m s = (Ret r, mkSt w' (trace s ++ evs) _) ∧ _]
    once [m s] is evaluated. *)
Ltac trace_done :=
  eexists _, _, _; split; [rewrite <- ?app_assoc; reflexivity | done].



Section Phase1Facts.
Context {W : Type} `{!Web W} `{!HtmlParser} `{!FloatText}.

Lemma fetch_product_link_spec gtin (s : St W) :
  ∃ r evs w',
    fetch_product_link gtin s = (Ret r, mkSt w' (trace s ++ evs) (session s)) ∧
    lookups evs = 1%nat ∧ scrapes evs = 0%nat.
Proof.
  unfold fetch_product_link, requests_get, st_warning. unfold_m. simpl.
  destruct (http_get _ _) as [[c|m] w'] eqn:Hget; simpl; [|trace_done].
  destruct (parse_html c) as [e|soup]; simpl; [trace_done|].
  repeat case_match; simplify_eq/=; trace_done.
Qed.

Lemma fetch_product_details_spec url (s : St W) :
  ∃ r evs w',
    fetch_product_details url s = (Ret r, mkSt w' (trace s ++ evs) (session s)) ∧
    lookups evs = 0%nat ∧ scrapes evs = 1%nat.
Proof.
  unfold fetch_product_details, requests_get, st_warning. unfold_m. simpl.
  destruct (http_get _ _) as [[c|m] w'] eqn:Hget; simpl; [|trace_done].
  destruct (parse_html c) as [e|soup]; simpl; trace_done.
Qed.

(** *** Loops *)

Lemma lookups_app a b : lookups (a ++ b) = (lookups a + lookups b)%nat.
Proof. unfold lookups. by rewrite List.filter_app, length_app. Qed.


Lemma for_each_cons {A B} (body : A → M W B) x l (s : St W) :
  for_each body (x :: l) s =
  match body x s with
  | (Ret y, s1) =>
      match for_each body l s1 with
      | (Ret ys, s2) => (Ret (y :: ys), s2)
      | (Raise e, s2) => (Raise e, s2)
      end
  | (Raise e, s1) => (Raise e, s1)
  end.
Proof.
  simpl. unfold bind, ret. destruct (body x s) as [[y|e] s1]; [|done].
  by destruct (for_each body l s1) as [[ys|e] s2].
Qed.

Lemma for_each_app {A B} (body : A → M W B) l1 l2 (s : St W) :
  for_each body (l1 ++ l2) s =
  match for_each body l1 s with
  | (Ret ys1, s1) =>
      match for_each body l2 s1 with
      | (Ret ys2, s2) => (Ret (ys1 ++ ys2), s2)
      | (Raise e, s2) => (Raise e, s2)
      end
  | (Raise e, s1) => (Raise e, s1)
  end.
Proof.
  revert s. induction l1 as [|x l1 IH]; intros s.
  - simpl. unfold ret. by destruct (for_each body l2 s) as [[?|?] ?].
  - rewrite <- app_comm_cons, !for_each_cons.
    destruct (body x s) as [[y|e] s1]; [|done].
    rewrite IH.
    destruct (for_each body l1 s1) as [[ys1|e] s2]; [|done].
    by destruct (for_each body l2 s2) as [[ys2|e] s3].
Qed.

(** A loop whose body always returns, returns; it makes [n] lookups per
    element when the body makes [n]. *)
Lemma for_each_spec {A B} (body : A → M W B) (l : list A) (n : nat) :
  (∀ x (s : St W), x ∈ l → ∃ y evs w',
      body x s = (Ret y, mkSt w' (trace s ++ evs) (session s)) ∧ lookups evs = n) →
  ∀ s, ∃ ys evs w',
    for_each body l s = (Ret ys, mkSt w' (trace s ++ evs) (session s)) ∧
    length ys = length l ∧ lookups evs = (n * length l)%nat.
Proof.
  induction l as [|x l IH]; intros Hbody s.
  - exists [], [], (world s). simpl. unfold ret. rewrite app_nil_r. destruct s.
    split; [done|]. split; [done|]. unfold lookups. simpl. lia.
  - destruct (Hbody x s) as (y & evs & w1 & Hx & Hn); [left|].
    destruct (IH (λ x s Hin, Hbody x s (list_elem_of_further _ _ _ Hin))
                 (mkSt w1 (trace s ++ evs) (session s)))
      as (ys & evs' & w2 & Hl & Hlen & Hn').
    exists (y :: ys), (evs ++ evs'), w2.
    rewrite for_each_cons, Hx, Hl. simpl.
    rewrite app_assoc. split; [done|]. split; [simpl; lia|].
    rewrite lookups_app. simpl. lia.
Qed.


Lemma new_events_app (s : St W) w evs x :
  new_events s (mkSt w (trace s ++ evs) x) = evs.
Proof. unfold new_events. simpl. by rewrite drop_app_length. Qed.

(** *** The rows of Phase 1 *)

Lemma scrape_row_spec df i g (s : St W) :
  df_cell df i "GTIN" = Some g →
  ∃ r evs w',
    scrape_row df i s = (Ret r, mkSt w' (trace s ++ evs) (session s)) ∧
    lookups evs = 1%nat.
Proof.
  intros Hg. unfold scrape_row, row_get. rewrite Hg.
  destruct (fetch_product_link_spec (strip (py_str g)) s)
    as (link & evs & w1 & Hl & Hn & _).
  unfold bind at 1 2. unfold ret at 1. rewrite Hl.
  assert (∃ r evs' w',
    match link with
    | Some l => if py_truthy (PyStr l) then fetch_product_details l else ret (None, None)
    | None => ret (None, None)
    end (mkSt w1 (trace s ++ evs) (session s)) =
    (Ret r, mkSt w' ((trace s ++ evs) ++ evs') (session s)) ∧ lookups evs' = 0%nat)
    as (r & evs' & w2 & Hd & Hn').
  { destruct link as [l|]; [destruct (py_truthy (PyStr l))|].
    - destruct (fetch_product_details_spec l (mkSt w1 (trace s ++ evs) (session s)))
        as (r & evs' & w2 & Hd & Hn' & _). eauto 6.
    - exists (None, None), [], w1. unfold ret. by rewrite app_nil_r.
    - exists (None, None), [], w1. unfold ret. by rewrite app_nil_r. }
  unfold bind at 1. rewrite Hd. unfold_m. simpl.
  exists r, (evs ++ evs' ++ [EvSleep 1]), w2. rewrite !app_assoc.
  split; [done|]. rewrite !lookups_app, Hn, Hn'. done.
Qed.


Lemma link_row_spec df i g (s : St W) :
  df_cell df i "GTIN" = Some g →
  ∃ r evs w',
    link_row df i s = (Ret r, mkSt w' (trace s ++ evs) (session s)) ∧
    lookups evs = 1%nat.
Proof.
  intros Hg. unfold link_row, row_get. rewrite Hg.
  destruct (fetch_product_link_spec (py_str g) s) as (link & evs & w1 & Hl & Hn & _).
  unfold bind, ret. eauto 6.
Qed.

(** *** The markup column *)

Lemma mul_column_numeric k l :
  Forall (λ v, is_Some (numeric_value v)) l →
  ∃ ps, mul_column k l = inr ps ∧
        ∀ i v, l !! i = Some v →
               ∃ f, numeric_value v = Some f ∧
                    ps !! i = Some (PyFloat (PrimFloat.mul f k)).
Proof.
  induction 1 as [|v l [f Hf] Hl (ps & IH & Hps)]; simpl.
  - exists []. split; [done|]. intros i v Hi. done.
  - unfold mul_cell. rewrite Hf, IH. eexists. split; [done|].
    intros [|i] v' Hi; simpl in *; simplify_eq; eauto.
Qed.

(** *** Phase 1 returns a table *)


Lemma gtin_cells df :
  df_wf df → missing_cols df = [] →
  ∀ i, i ∈ iterrows df → ∃ g, df_cell df i "GTIN" = Some g.
Proof.
  intros Hwf Hm i Hi. apply df_wf_cell; [done| |].
  - apply missing_cols_nil; [done|]. unfold required_cols. left.
  - unfold iterrows in Hi. apply elem_of_seq in Hi. lia.
Qed.

Lemma phase1_returns df (s : St W) :
  df_wf df → missing_cols df = [] →
  numeric_column df "€ Price inc. shipping" →
  ∃ scraped s1 links s2 cost prices,
    for_each (scrape_row df) (iterrows df) s = (Ret scraped, s1) ∧
    for_each (link_row df) (iterrows df) s1 = (Ret links, s2) ∧
    df_col df "€ Price inc. shipping" = Some cost ∧
    mul_column markup cost = inr prices ∧
    phase1 df s = (Ret (phase1_table df scraped links prices), s2) ∧
    session s2 = session s ∧
    lookups (new_events s s2) = (2 * nrows df)%nat.
Proof.
  intros Hwf Hm (cost & Hcost & Hnum).
  pose proof (gtin_cells df Hwf Hm) as Hg.
  destruct (for_each_spec (scrape_row df) (iterrows df) 1) with (s := s)
    as (scraped & evs1 & w1 & Hs & Hlen1 & Hn1).
  { intros i s0 Hi. destruct (Hg i Hi) as [g Hgi].
    apply (scrape_row_spec df i g s0 Hgi). }
  destruct (for_each_spec (link_row df) (iterrows df) 1)
    with (s := mkSt w1 (trace s ++ evs1) (session s))
    as (links & evs2 & w2 & Hl & Hlen2 & Hn2).
  { intros i s0 Hi. destruct (Hg i Hi) as [g Hgi].
    apply (link_row_spec df i g s0 Hgi). }
  destruct (mul_column_numeric markup cost Hnum) as (prices & Hp & _).
  simpl in Hl.
  eexists scraped, _, links, _, cost, prices.
  split; [exact Hs|]. split; [exact Hl|]. split; [done|]. split; [done|].
  split; [|split; [done|]].
  - unfold phase1. unfold bind at 1. rewrite Hs.
    unfold bind at 1. rewrite Hl.
    unfold df_col_mul. rewrite !df_col_set_ne, Hcost by done.
    unfold bind, lift_res, ret. rewrite Hp. done.
  - rewrite <- app_assoc, new_events_app, lookups_app, Hn1, Hn2.
    unfold iterrows. rewrite length_seq. lia.
Qed.



(** ** Pricing (claim C1) *)


(** ** Rows without a link (claim C2) *)


(** ** One lookup per row or two (claim C9) *)

(** Phase 1 calls [fetch_product_link] twice per row. *)
Lemma phase1_two_lookups_per_row df (s : St W) :
  df_wf df → missing_cols df = [] →
  numeric_column df "€ Price inc. shipping" →
  ∃ df' s', phase1 df s = (Ret df', s') ∧
            lookups (new_events s s') = (2 * nrows df)%nat.
Proof.
  intros Hwf Hm Hnum.
  destruct (phase1_returns df s Hwf Hm Hnum)
    as (scraped & s1 & links & s2 & cost & prices & _ & _ & _ & _ & Hrun & _ & Hn).
  eauto.
Qed.

(** The loop body of [phase1] is the body with one lookup, its link dropped. *)
Lemma scrape_row_once_snd df i (s : St W) :
  scrape_row df i s =
  match scrape_row_once df i s with
  | (Ret x, s') => (Ret x.2, s')
  | (Raise e, s') => (Raise e, s')
  end.
Proof.
  unfold scrape_row, scrape_row_once, row_get, bind, ret, raise, emit.
  destruct (df_cell df i "GTIN") as [g|]; [|done].
  destruct (fetch_product_link (strip (py_str g)) s) as [[link|e] s1]; [|done].
  destruct (match link with
            | Some l =>
                if py_truthy (PyStr l) then fetch_product_details l
                else λ s, (Ret (None, None), s)
            | None => λ s, (Ret (None, None), s)
            end s1) as [[r|e] s2]; done.
Qed.

Lemma scrape_row_once_link df i g lookup (s : St W) x s' :
  (∀ gtin (s : St W), (fetch_product_link gtin s).1 = Ret (lookup gtin)) →
  df_cell df i "GTIN" = Some g →
  scrape_row_once df i s = (Ret x, s') →
  x.1 = lookup (strip (py_str g)).
Proof.
  intros Hdet Hg. unfold scrape_row_once, row_get, bind, ret, raise, emit. rewrite Hg.
  specialize (Hdet (strip (py_str g)) s).
  destruct (fetch_product_link (strip (py_str g)) s) as [[link|e] s1]; [|done].
  simpl in Hdet. simplify_eq.
  destruct (match lookup (strip (py_str g)) with
            | Some l =>
                if py_truthy (PyStr l) then fetch_product_details l
                else λ s, (Ret (None, None), s)
            | None => λ s, (Ret (None, None), s)
            end s1) as [[r|e] s2]; [|done].
  by intros [= <- <-].
Qed.


Lemma scrape_loop_once df lookup l (s : St W) :
  (∀ gtin (s : St W), (fetch_product_link gtin s).1 = Ret (lookup gtin)) →
  (∀ i, i ∈ l → is_Some (df_cell df i "GTIN")) →
  match for_each (scrape_row_once df) l s with
  | (Ret rows, s1) =>
      for_each (scrape_row df) l s = (Ret (map snd rows), s1) ∧
      map fst rows = map (λ i, lookup (strip (gtin_text df i))) l
  | (Raise e, s1) => for_each (scrape_row df) l s = (Raise e, s1)
  end.
Proof.
  intros Hdet. revert s. induction l as [|i l IH]; intros s Hg; [done|].
  rewrite !for_each_cons, scrape_row_once_snd.
  destruct (scrape_row_once df i s) as [[x|e] s1] eqn:Hx; [|done].
  specialize (IH s1 (λ j Hj, Hg j (list_elem_of_further _ _ _ Hj))).
  destruct (for_each (scrape_row_once df) l s1) as [[rows|e] s2]; [|by rewrite IH].
  destruct IH as [-> IH]. split; [done|]. simpl. rewrite IH. f_equal.
  destruct (Hg i) as [g Hgi]; [left|].
  unfold gtin_text. rewrite Hgi. by eapply scrape_row_once_link.
Qed.

Lemma link_loop_values df lookup l (s : St W) :
  (∀ gtin (s : St W), (fetch_product_link gtin s).1 = Ret (lookup gtin)) →
  (∀ i, i ∈ l → is_Some (df_cell df i "GTIN")) →
  (for_each (link_row df) l s).1 = Ret (map (λ i, lookup (gtin_text df i)) l).
Proof.
  intros Hdet. revert s. induction l as [|i l IH]; intros s Hg; [done|].
  rewrite for_each_cons.
  destruct (Hg i) as [g Hgi]; [left|].
  unfold link_row at 1, row_get, bind, ret. rewrite Hgi.
  specialize (Hdet (py_str g) s).
  destruct (fetch_product_link (py_str g) s) as [[link|e] s1]; [|done].
  simpl in Hdet. simplify_eq.
  specialize (IH s1 (λ j Hj, Hg j (list_elem_of_further _ _ _ Hj))).
  destruct (for_each (link_row df) l s1) as [[links|e] s2]; [|done].
  simpl in *. simplify_eq. unfold gtin_text at 2. by rewrite Hgi.
Qed.

(** With a lookup that is a function of the identifier, and identifiers
    that [strip] leaves alone, one lookup per row gives the table of the
    source. *)
Lemma single_lookup_same_table df lookup (s : St W) :
  df_wf df → missing_cols df = [] →
  (∀ gtin (s : St W), (fetch_product_link gtin s).1 = Ret (lookup gtin)) →
  (∀ i, (i < nrows df)%nat → lookup (strip (gtin_text df i)) = lookup (gtin_text df i)) →
  (phase1 df s).1 = (phase1_single_lookup df s).1.
Proof.
  intros Hwf Hm Hdet Hstrip.
  assert (∀ i, i ∈ iterrows df → is_Some (df_cell df i "GTIN")) as Hg.
  { intros i Hi. destruct (gtin_cells df Hwf Hm i Hi) as [g Hgi]. eauto. }
  pose proof (scrape_loop_once df lookup (iterrows df) s Hdet Hg) as Hloop.
  pose proof (λ s1, link_loop_values df lookup (iterrows df) s1 Hdet Hg) as Hlinks.
  unfold phase1, phase1_single_lookup, bind.
  destruct (for_each (scrape_row_once df) (iterrows df) s) as [[rows|e] s1].
  2: { rewrite Hloop. done. }
  destruct Hloop as [-> Hfst].
  specialize (Hlinks s1).
  destruct (for_each (link_row df) (iterrows df) s1) as [[links|e] s2]; [|done].
  simpl in Hlinks. simplify_eq.
  assert (map cell_of_opt (map (λ i, lookup (gtin_text df i)) (iterrows df))
          = map (λ r : option string * (option string * option string), cell_of_opt r.1) rows)
    as ->.
  { rewrite <- (map_map fst cell_of_opt rows), Hfst. f_equal.
    apply map_ext_in. intros i Hi. symmetry. apply Hstrip.
    apply in_seq in Hi. lia. }
  rewrite !map_map. simpl.
  match goal with
  | |- context [df_col_mul ?T _ _ s2] => generalize T
  end.
  intros T. unfold df_col_mul, lift_res, raise, ret.
  destruct (df_col T _) as [l|]; [|done].
  by destruct (mul_column markup l).
Qed.

(** ** The scraper on pages without containers (claim C6) *)

(** C6. When the detail page is fetched and parsed, [fetch_product_details]
    returns; its description is the empty string, not [None], if the page
    has no description container, and its image is [None] if the page has
    no image container or the container holds no [img] element. *)
Theorem details_without_containers url (s : St W) content w' soup :
  http_get url (world s) = (HttpOk content, w') →
  parse_html content = inr soup →
  ∃ d img s',
    fetch_product_details url s = (Ret (d, img), s') ∧
    (find soup (DivId "dx-description-container") = None → d = Some "") ∧
    (find soup (DivClass "dx_product-image__container") = None ∨
     (∃ c, find soup (DivClass "dx_product-image__container") = Some c ∧
           find c ImgTag = None) →
     img = None).
Proof.
  intros Hget Hparse.
  unfold fetch_product_details, requests_get, st_warning. unfold_m. simpl.
  rewrite Hget. simpl. rewrite Hparse. simpl.
  eexists _, _, _. split; [reflexivity|]. split.
  - intros ->. done.
  - intros [->|(c & -> & ->)]; done.
Qed.
End Phase1Facts.

(** ** The uploader *)


Section Phase2Facts.
Context {W : Type} `{!Shop W} `{!FloatText}.

Lemma upload_product_spec name description price image_url sku inventory (s : St W) :
  ∃ res evs w',
    upload_product name description price image_url sku inventory s =
      (Ret res, mkSt w' (trace s ++ evs) (session s)) ∧
    forallb (λ ev, negb (is_destroy ev)) evs = true ∧
    (∃ evs', evs = EvProductSave (build_product name description price image_url sku) :: evs') ∧
    ∃ r, upload_product_body name description price image_url sku inventory s =
           (r, mkSt w' (trace s ++ evs) (session s)) ∧
         match r with
         | Ret x => res = x
         | Raise e => res = (false, None, ErrText (exn_msg e))
         end.
Proof.
  unfold upload_product, upload_product_body, first. unfold_m. simpl.
  destruct (shop_save _ _) as [[e|[pid items|msgs]] w1]; simpl.
  2: destruct items as [|item items]; simpl.
  3: destruct (shop_locations w1) as [[e|[|loc locs]] w2]; simpl.
  5: destruct (shop_inventory_set _ _ _ _) as [[e|[]] w3]; simpl.
  all: eexists _, _, _; split; [rewrite <- ?app_assoc; reflexivity|].
  all: split; [done|].
  all: split; [eexists; reflexivity|].
  all: eexists; split; [rewrite <- ?app_assoc; reflexivity|done].
Qed.

(** *** Cell updates *)

Lemma df_cell_set_at_ne_col df i c v j c' :
  c' ≠ c → df_cell (df_set_at df i c v) j c' = df_cell df j c'.
Proof.
  intros Hne. unfold df_set_at, df_cell, df_col.
  destruct (assoc c (cols df)) as [l|] eqn:E; [|done].
  simpl. by rewrite assoc_set_ne.
Qed.

Lemma df_cell_set_at_ne_row df i c v j c' :
  j ≠ i → df_cell (df_set_at df i c v) j c' = df_cell df j c'.
Proof.
  intros Hne. unfold df_set_at, df_cell, df_col.
  destruct (assoc c (cols df)) as [l|] eqn:E; [|done].
  simpl. destruct (decide (c' = c)) as [->|Hc].
  - rewrite assoc_set_eq, E. simpl. by rewrite list_lookup_insert_ne.
  - by rewrite assoc_set_ne.
Qed.

Lemma df_cell_set_at_eq df i c v :
  is_Some (df_cell df i c) → df_cell (df_set_at df i c v) i c = Some v.
Proof.
  unfold df_set_at, df_cell, df_col.
  destruct (assoc c (cols df)) as [l|] eqn:E; simpl; [|by intros [? ?]].
  intros Hs. rewrite assoc_set_eq. simpl.
  apply list_lookup_insert_eq. by apply lookup_lt_is_Some_1.
Qed.

Lemma df_cell_set_at_is_Some df i c v j c' :
  is_Some (df_cell (df_set_at df i c v) j c') ↔ is_Some (df_cell df j c').
Proof.
  destruct (decide (c' = c)) as [->|Hc]; [|by rewrite df_cell_set_at_ne_col].
  destruct (decide (j = i)) as [->|Hj]; [|by rewrite df_cell_set_at_ne_row].
  split; intros Hs.
  - unfold df_set_at, df_cell, df_col in *.
    destruct (assoc c (cols df)) as [l|] eqn:E; simpl in *; [|by rewrite E in Hs].
    rewrite assoc_set_eq in Hs. simpl in Hs.
    apply lookup_lt_is_Some_1 in Hs. rewrite length_insert in Hs.
    by apply lookup_lt_is_Some_2.
  - rewrite df_cell_set_at_eq; eauto.
Qed.

(** Recording an outcome touches the two result cells of the row only. *)
Lemma recorded_frame sess idx res j c :
  j ≠ idx ∨ (c ≠ "Product ID" ∧ c ≠ "Upload Status") →
  df_cell (recorded sess idx res) j c = df_cell sess j c.
Proof.
  destruct res as [[[] pid] err]; simpl; intros [Hj|[Hc1 Hc2]].
  - by rewrite !df_cell_set_at_ne_row.
  - by rewrite !df_cell_set_at_ne_col.
  - by rewrite df_cell_set_at_ne_row.
  - by rewrite df_cell_set_at_ne_col.
Qed.

Lemma recorded_is_Some sess idx res j c :
  is_Some (df_cell (recorded sess idx res) j c) ↔ is_Some (df_cell sess j c).
Proof.
  destruct res as [[[] pid] err]; simpl; by rewrite ?df_cell_set_at_is_Some.
Qed.

(** *** The rows of Phase 2 *)

Lemma record_upload_spec idx name res (s : St W) sess :
  session s = Some sess →
  ∃ ev, record_upload idx name res s =
          (Ret tt, mkSt (world s) (trace s ++ [ev]) (Some (recorded sess idx res))).
Proof.
  intros Hs. destruct res as [[[] pid] err]; unfold record_upload, recorded.
  all: unfold_m; simpl; rewrite Hs; simpl; eauto.
Qed.

Lemma upload_row_ready df idx name description price image_url sku qty (s : St W) :
  row_ready df idx name description price image_url sku qty →
  upload_row df idx s =
    (let! res := upload_product name description price image_url sku qty in
     record_upload idx name res) s.
Proof.
  intros (d & sp & im & g & inv & Hn & Hd & -> & Hsp & Hprice & Him & -> & Hg & -> & Hinv & Hqty).
  unfold upload_row, row_get. rewrite Hn, Hd, Hsp, Him, Hg, Hinv.
  unfold bind at 1 2 3. unfold ret at 1 2 3.
  assert ((if negb (pd_isna sp) then lift_res (py_float sp) else ret 0%float) s
          = (Ret price, s)) as Hp.
  { destruct (negb (pd_isna sp)); [rewrite Hprice|]; unfold lift_res, ret; congruence. }
  unfold bind at 1. rewrite Hp.
  unfold bind at 1 2 3. unfold ret at 1 2 3.
  assert ((if negb (pd_isna inv) then lift_res (py_int inv) else ret 0) s
          = (Ret qty, s)) as Hq.
  { destruct (negb (pd_isna inv)); [rewrite Hqty|]; unfold lift_res, ret; congruence. }
  unfold bind at 1. rewrite Hq. done.
Qed.

Lemma upload_row_spec df idx name description price image_url sku qty (s : St W) sess :
  row_ready df idx name description price image_url sku qty →
  session s = Some sess →
  ∃ res evs w',
    upload_product name description price image_url sku qty s =
      (Ret res, mkSt w' (trace s ++ removelast evs) (session s)) ∧
    upload_row df idx s =
      (Ret tt, mkSt w' (trace s ++ evs) (Some (recorded sess idx res))).
Proof.
  intros Hready Hs. rewrite (upload_row_ready _ _ _ _ _ _ _ _ _ Hready).
  destruct (upload_product_spec name description price image_url sku qty s)
    as (res & evs & w' & Hup & _).
  unfold bind. rewrite Hup.
  destruct (record_upload_spec idx name res (mkSt w' (trace s ++ evs) (session s)) sess Hs)
    as [ev Hrec].
  rewrite Hrec. simpl. exists res, (evs ++ [ev]), w'.
  rewrite removelast_last, app_assoc. done.
Qed.

(** *** The upload loop *)

Lemma upload_loop_spec df l (s : St W) sess :
  NoDup l →
  (∀ i, i ∈ l → ∃ name description price image_url sku qty,
                  row_ready df i name description price image_url sku qty) →
  session s = Some sess →
  (∀ i, i ∈ l → is_Some (df_cell sess i "Upload Status")) →
  ∃ rs evs w' sess',
    for_each (upload_row df) l s = (Ret rs, mkSt w' (trace s ++ evs) (Some sess')) ∧
    (∀ i, i ∈ l → status_recorded (df_cell sess' i "Upload Status")) ∧
    (∀ j c, j ∉ l ∨ (c ≠ "Product ID" ∧ c ≠ "Upload Status") →
            df_cell sess' j c = df_cell sess j c) ∧
    (∀ j c, is_Some (df_cell sess' j c) ↔ is_Some (df_cell sess j c)).
Proof.
  intros Hnd. revert s sess.
  induction Hnd as [|i l Hi Hnd IH]; intros s sess Hready Hs Hst.
  - exists [], [], (world s), sess. simpl. unfold ret. rewrite app_nil_r.
    destruct s; simpl in *; subst. split; [done|]. split; [|done].
    intros i Hi. by apply not_elem_of_nil in Hi.
  - destruct (Hready i) as (name & description & price & image_url & sku & qty & Hr); [left|].
    destruct (upload_row_spec df i _ _ _ _ _ _ s sess Hr Hs) as (res & evs & w1 & _ & Hrow).
    destruct (IH (mkSt w1 (trace s ++ evs) (Some (recorded sess i res))) (recorded sess i res))
      as (rs & evs' & w2 & sess' & Hloop & Hrec & Hframe & Hsome).
    { intros j Hj. apply Hready. by right. }
    { done. }
    { intros j Hj. rewrite recorded_is_Some. apply Hst. by right. }
    exists (tt :: rs), (evs ++ evs'), w2, sess'.
    rewrite for_each_cons, Hrow, Hloop. simpl. rewrite app_assoc.
    split; [done|]. split; [|split].
    + intros j Hj. apply elem_of_cons in Hj as [->|Hj]; [|by apply Hrec].
      rewrite Hframe by (by left).
      destruct (Hst i) as [old Hold]; [left|].
      destruct res as [[[] pid] err]; simpl.
      * left. apply df_cell_set_at_eq. rewrite df_cell_set_at_is_Some. eauto.
      * right. exists err. apply df_cell_set_at_eq. eauto.
    + intros j c [Hj|Hc].
      * apply not_elem_of_cons in Hj as [Hji Hj].
        rewrite Hframe by (by left). apply recorded_frame. by left.
      * rewrite Hframe by (by right). apply recorded_frame. by right.
    + intros j c. rewrite Hsome. apply recorded_is_Some.
Qed.

Lemma ensure_column_spec c v (s : St W) sess :
  session s = Some sess →
  ensure_column c v s = (Ret tt, mkSt (world s) (trace s) (Some (ensured sess c v))).
Proof.
  intros Hs. unfold ensure_column, ensured. unfold_m. rewrite Hs.
  destruct (has_column sess c); simpl.
  - destruct s; simpl in *; by subst.
  - by rewrite Hs.
Qed.

Lemma ensured_cell_ne sess c v i c' :
  c' ≠ c → df_cell (ensured sess c v) i c' = df_cell sess i c'.
Proof.
  intros Hne. unfold ensured. destruct (has_column sess c); [done|].
  by apply df_cell_set_ne.
Qed.

Lemma ensured_cell_eq sess c v i :
  df_wf sess → (i < nrows sess)%nat → is_Some (df_cell (ensured sess c v) i c).
Proof.
  intros Hwf Hi. unfold ensured. destruct (has_column sess c) eqn:Hc.
  - destruct (df_wf_cell sess c i Hwf Hc Hi) as [x Hx]. eauto.
  - rewrite df_cell_set_eq. apply lookup_lt_is_Some_2. by rewrite length_replicate.
Qed.

Lemma df_set_col_wf df c vs :
  df_wf df → length vs = nrows df → df_wf (df_set_col df c vs).
Proof.
  unfold df_wf, df_set_col. simpl. intros Hwf Hlen.
  induction Hwf as [|[k x] l Hx Hl IH]; simpl.
  - by repeat constructor.
  - destruct (String.eqb c k); constructor; auto.
Qed.

Lemma ensured_wf sess c v : df_wf sess → df_wf (ensured sess c v).
Proof.
  intros Hwf. unfold ensured. destruct (has_column sess c); [done|].
  apply df_set_col_wf; [done|]. apply length_replicate.
Qed.

Lemma ensured_nrows sess c v : nrows (ensured sess c v) = nrows sess.
Proof. unfold ensured. by destruct (has_column sess c). Qed.

Lemma row_ready_ext df df' i name description price image_url sku qty :
  (∀ c, c ≠ "Product ID" → c ≠ "Upload Status" → df_cell df' i c = df_cell df i c) →
  row_ready df i name description price image_url sku qty →
  row_ready df' i name description price image_url sku qty.
Proof.
  intros Hext (d & sp & im & g & inv & H1 & H2 & H3 & H4 & H5 & H6 & H7 & H8 & H9 & H10 & H11).
  exists d, sp, im, g, inv. rewrite !Hext by done. done.
Qed.

(** Phase 2 runs over all rows whatever the platform answers, provided the
    cells of every row can be converted. *)
Lemma phase2_returns shop_url api_version api_token (s : St W) sess :
  session s = Some sess → df_wf sess → rows_ready sess →
  ∃ s' sess',
    phase2 shop_url api_version api_token s = (Ret tt, s') ∧
    session s' = Some sess' ∧
    (∀ i, (i < nrows sess)%nat → status_recorded (df_cell sess' i "Upload Status")) ∧
    (∀ i c, c ≠ "Product ID" → c ≠ "Upload Status" → df_cell sess' i c = df_cell sess i c).
Proof.
  intros Hs Hwf Hready.
  set (sess1 := ensured sess "Product ID" PyNone).
  set (sess2 := ensured sess1 "Upload Status" (PyStr "Pending")).
  assert (nrows sess2 = nrows sess) as Hn.
  { unfold sess2, sess1. by rewrite !ensured_nrows. }
  assert (∀ i c, c ≠ "Product ID" → c ≠ "Upload Status" →
                 df_cell sess2 i c = df_cell sess i c) as Hsame.
  { intros i c H1 H2. unfold sess2, sess1. by rewrite !ensured_cell_ne. }
  assert (df_wf sess1) as Hwf1 by apply (ensured_wf _ _ _ Hwf).
  destruct (upload_loop_spec sess2 (iterrows sess2)
              (mkSt (world s) (trace s ++ [EvSessionActivate shop_url api_version api_token])
                    (Some sess2)) sess2)
    as (rs & evs & w' & sess' & Hloop & Hrec & Hframe & Hsome).
  { apply NoDup_seq. }
  { intros i Hi. apply elem_of_seq in Hi.
    destruct (Hready i) as (n & d & p & im & k & q & Hr); [lia|].
    exists n, d, p, im, k, q. eapply row_ready_ext; [|exact Hr].
    intros c H1 H2. by apply Hsame. }
  { done. }
  { intros i Hi. apply elem_of_seq in Hi. unfold sess2.
    apply ensured_cell_eq; [done|]. unfold sess1. rewrite ensured_nrows. lia. }
  eexists _, sess'. split; [|split; [|split]].
  - unfold phase2. unfold bind at 1. unfold emit at 1.
    unfold bind at 1.
    rewrite (ensure_column_spec "Product ID" PyNone _ sess) by done.
    unfold bind at 1. simpl.
    rewrite (ensure_column_spec "Upload Status" (PyStr "Pending") _ sess1) by done.
    fold sess2. unfold bind at 1. unfold get_session at 1. simpl.
    unfold bind at 1. rewrite Hloop. unfold bind, emit, get_session. simpl.
    reflexivity.
  - done.
  - intros i Hi. apply Hrec. apply elem_of_seq. lia.
  - intros i c H1 H2. rewrite Hframe by (by right). by apply Hsame.
Qed.

(** ** Rejected products (claim C3) *)


(** ** No fulfillment location (claim C4) *)

(** C4. When the platform accepts the product (the saved product carries
    the inventory item of its variant) and then lists no location,
    [upload_product] returns failure, no product id and the message
    "No locations found for inventory."; its calls to the platform are the
    save of the product and the location lookup, in this order, and nothing
    else: the created product is not deleted. *)
Theorem no_location_fails_after_creation
    name description price image_url sku inventory (s : St W) pid item items w1 w2 :
  shop_save (build_product name description price image_url sku) (world s)
    = (inr (Accepted pid (item :: items)), w1) →
  shop_locations w1 = (inr [], w2) →
  upload_product name description price image_url sku inventory s =
    (Ret (false, None, ErrText "No locations found for inventory."),
     mkSt w2
          (trace s ++ [EvProductSave (build_product name description price image_url sku);
                       EvLocationFind])
          (session s)).
Proof.
  intros Hsave Hloc.
  unfold upload_product, upload_product_body, first. unfold_m. simpl.
  rewrite Hsave. simpl. rewrite Hloc. simpl. by rewrite <- app_assoc.
Qed.

(** ** Exceptions inside the uploader (claim C5) *)

(** C5. [upload_product] always returns a triple and never raises: whatever
    the platform does, and whenever the [try] block raises an exception
    [e], the result is failure, no product id and the message of [e]. None
    of its calls deletes a product. *)
Theorem upload_product_never_raises
    name description price image_url sku inventory (s : St W) :
  ∃ res evs w',
    upload_product name description price image_url sku inventory s =
      (Ret res, mkSt w' (trace s ++ evs) (session s)) ∧
    forallb (λ ev, negb (is_destroy ev)) evs = true ∧
    ∀ e s1,
      upload_product_body name description price image_url sku inventory s = (Raise e, s1) →
      res = (false, None, ErrText (exn_msg e)).
Proof.
  destruct (upload_product_spec name description price image_url sku inventory s)
    as (res & evs & w' & Hup & Hnd & _ & r & Hbody & Hr).
  exists res, evs, w'. split; [done|]. split; [done|].
  intros e s1 He. rewrite Hbody in He. by simplify_eq.
Qed.

(** ** Rows without an image (claim C10) *)

(** C10. For a row whose "Image_URL" is missing, the upload loop passes the
    empty string as image reference; [upload_product] attaches one image
    exactly when the reference it is given is a non-empty string; so the
    row's upload goes on to save a product that has no image. *)
Theorem missing_image_uploads_without_image df idx (s : St W) sess
    name description price image_url sku qty im :
  row_ready df idx name description price image_url sku qty →
  session s = Some sess →
  df_cell df idx "Image_URL" = Some im →
  pd_isna im = true →
  image_url = PyStr "" ∧
  (∀ n d p (r k : string),
      images (build_product n d p (PyStr r) k)
      = if String.eqb r "" then [] else [mkImage (PyStr r)]) ∧
  ∃ p evs s',
    upload_row df idx s = (Ret tt, s') ∧
    new_events s s' = EvProductSave p :: evs ∧
    p = build_product name description price (PyStr "") sku ∧
    images p = [].
Proof.
  intros Hready Hs Him Hna.
  assert (image_url = PyStr "") as ->.
  { destruct Hready as (d & sp & im' & g & inv & _ & _ & _ & _ & _ & Him' & -> & _).
    assert (im' = im) as -> by congruence.
    unfold pd_notnull. by rewrite Hna. }
  split; [done|]. split.
  { intros n d p r k. unfold build_product. simpl. by destruct (String.eqb r ""). }
  destruct (upload_product_spec name description price (PyStr "") sku qty s)
    as (res & evs & w' & Hup & _ & [evs' ->] & _).
  rewrite (upload_row_ready _ _ _ _ _ _ _ _ _ Hready).
  unfold bind. rewrite Hup.
  destruct (record_upload_spec idx name res
              (mkSt w' (trace s ++ EvProductSave (build_product name description price (PyStr "") sku) :: evs')
                    (session s)) sess Hs) as [ev Hrec].
  rewrite Hrec. simpl. eexists _, (evs' ++ [ev]), _. split; [done|].
  unfold new_events. simpl. rewrite <- app_assoc, drop_app_length. done.
Qed.
End Phase2Facts.

(** ** What aborts a run (claim C7) *)




Section AppFacts.
Context {W : Type} `{!Web W} `{!HtmlParser} `{!Shop W} `{!FloatText}.

(** C7, amended. With a file that lacks a required column, [main] shows one
    error that lists the missing columns and does nothing else: no lookup,
    no request, no upload, and the session is left as it was. With the
    columns there, failures of the lookup, of the scraper and of
    [upload_product] never stop a phase: for a numeric cost column the
    scrape run stores a table with all rows whatever the web site answers,
    and for rows whose cells can be converted the upload run returns with an
    outcome recorded in the status of every row whatever the platform
    answers. (Errors outside these calls are not covered: they do stop the
    phase.) *)
Theorem run_aborts_only_on_bad_input ui file df (s : St W) :
  uploaded_file ui = Some file → read_csv file = inr df →
  (missing_cols df ≠ [] →
   main ui s =
     (Ret tt,
      mkSt (world s)
           (trace s ++ [EvError ("Missing columns: " +:+ py_str_list (missing_cols df))])
           (session s))) ∧
  (missing_cols df = [] → df_wf df →
   numeric_column df "€ Price inc. shipping" →
   scrape_clicked ui = true → upload_clicked ui = false →
   ∃ df' s',
     main ui s = (Ret tt, s') ∧ session s' = Some df' ∧ nrows df' = nrows df) ∧
  (missing_cols df = [] →
   scrape_clicked ui = false → upload_clicked ui = true →
   ∀ sess, session s = Some sess → df_wf sess → rows_ready sess →
   ∃ sess' s',
     main ui s = (Ret tt, s') ∧ session s' = Some sess' ∧
     ∀ i, (i < nrows sess)%nat → status_recorded (df_cell sess' i "Upload Status")).
Proof.
  intros Hfile Hread. split; [|split].
  - intros Hmiss. unfold main, main_file. rewrite Hfile, Hread.
    unfold st_error. unfold_m. simpl.
    destruct (missing_cols df) as [|c l]; [done|]. done.
  - intros Hmiss Hwf Hnum Hscrape Hupload.
    destruct (phase1_returns df s Hwf Hmiss Hnum)
      as (scraped & s1 & links & s2 & cost & prices & _ & _ & _ & _ & Hrun & _).
    unfold main, main_file. rewrite Hfile, Hread.
    unfold bind, try_except, lift_res, ret, set_session, emit. cbn beta iota.
    rewrite Hmiss, Hscrape, Hupload, Hrun. simpl.
    eexists _, _. split; [reflexivity|]. done.
  - intros Hmiss Hscrape Hupload sess Hs Hwf Hready.
    destruct (phase2_returns (ui_shop_url ui) (ui_api_version ui) (ui_api_token ui)
                s sess Hs Hwf Hready) as (s' & sess' & Hrun & Hs' & Hrec & _).
    unfold main, main_file. rewrite Hfile, Hread.
    unfold bind, try_except, lift_res, ret. cbn beta iota.
    rewrite Hmiss, Hscrape, Hupload. simpl. rewrite Hs, Hrun.
    eauto.
Qed.
End AppFacts.

(** ** CSV round trip (claim C8) *)

(** *** Integers and their decimal text *)





Lemma uint_digits d : all_chars is_digit (NilEmpty.string_of_uint d) = true.
Proof. induction d; simpl; done. Qed.



Lemma lstrip_no_space s : all_chars (λ c, negb (is_space c)) s = true → lstrip s = s.
Proof. destruct s as [|c s]; simpl; [done|]. by destruct (is_space c). Qed.

Lemma rstrip_no_space s : all_chars (λ c, negb (is_space c)) s = true → rstrip s = s.
Proof.
  induction s as [|c s IH]; simpl; [done|].
  intros [Hc Hs]%andb_true_iff. rewrite IH by done.
  destruct s; [|done]. by destruct (is_space c).
Qed.

Lemma strip_no_space s : all_chars (λ c, negb (is_space c)) s = true → strip s = s.
Proof. intros Hs. unfold strip. by rewrite lstrip_no_space, rstrip_no_space. Qed.

Lemma all_chars_impl (p q : ascii → bool) s :
  (∀ c, p c = true → q c = true) → all_chars p s = true → all_chars q s = true.
Proof.
  intros Hpq. induction s as [|c s IH]; simpl; [done|].
  intros [Hc Hs]%andb_true_iff. by rewrite (Hpq c Hc), IH.
Qed.

Lemma digit_not_space c : is_digit c = true → negb (is_space c) = true.
Proof.
  unfold is_digit, digit_val, is_space. intros Hd.
  apply bool_decide_eq_true in Hd.
  destruct ((48 <=? nat_of_ascii c)%nat && (nat_of_ascii c <=? 57)%nat) eqn:E;
    [|by destruct Hd].
  apply andb_true_iff in E as [E1 E2].
  apply Nat.leb_le in E1, E2.
  apply negb_true_iff, orb_false_iff. split; apply andb_false_iff.
  - right. apply Nat.leb_gt. lia.
  - right. apply Nat.leb_gt. lia.
Qed.

Lemma uint_strip d : strip (NilEmpty.string_of_uint d) = NilEmpty.string_of_uint d.
Proof.
  apply strip_no_space. eapply all_chars_impl; [apply digit_not_space|apply uint_digits].
Qed.










(** *** Tables *)

Section CsvFacts.
Context `{!FloatText}.





(** *** Columns *)







End CsvFacts.

(** * Further properties of the code *)

(** ** The two scraping helpers *)

Section ScraperFacts.
Context {W : Type} `{!Web W} `{!HtmlParser} `{!FloatText}.

(** Shape of every run of [fetch_product_link]. *)
Lemma fetch_product_link_trace gtin (s : St W) :
  ∃ r evs,
    fetch_product_link gtin s =
      (Ret r, mkSt (http_get (search_endpoint gtin) (world s)).2
                   (trace s ++ EvFetchLink gtin :: EvHttpGet (search_endpoint gtin) :: evs)
                   (session s)) ∧
    (r = None ∨ ∃ l, r = Some l ∧ l ≠ "") ∧
    (evs = [] ∨ ∃ msg, evs = [EvWarning msg]).
Proof.
  unfold fetch_product_link, requests_get, st_warning, search_endpoint. unfold_m. simpl.
  destruct (http_get _ _) as [[c|m] w'] eqn:Hget; simpl.
  2: { eexists _, _. split; [rewrite <- !app_assoc; reflexivity|]. split; [by left|].
       right. by eexists. }
  destruct (parse_html c) as [e|soup]; simpl.
  { eexists _, _. split; [rewrite <- !app_assoc; reflexivity|]. split; [by left|].
    right. by eexists. }
  destruct (find soup _) as [pc|]; simpl.
  2: { eexists _, _. split; [rewrite <- !app_assoc; reflexivity|]. split; by left. }
  destruct (find pc _) as [pl|]; simpl.
  2: { eexists _, _. split; [rewrite <- !app_assoc; reflexivity|]. split; by left. }
  destruct (get_attr pl "href") as [href|]; simpl.
  2: { eexists _, _. split; [rewrite <- !app_assoc; reflexivity|]. split; by left. }
  destruct (String.eqb href "") eqn:E; simpl.
  - eexists _, _. split; [rewrite <- !app_assoc; reflexivity|]. split; by left.
  - eexists _, _. split; [rewrite <- !app_assoc; reflexivity|]. split; [|by left].
    right. exists href. split; [done|]. intros ->. by rewrite String.eqb_refl in E.
Qed.

(** X1. [fetch_product_link] never raises. It makes one request, to the
    search address of the identifier, and shows at most one warning; its
    result is [None] or a link that is not the empty string. *)
Theorem fetch_product_link_result gtin (s : St W) :
  ∃ r evs s',
    fetch_product_link gtin s = (Ret r, s') ∧
    new_events s s' = EvFetchLink gtin :: EvHttpGet (search_endpoint gtin) :: evs ∧
    (r = None ∨ ∃ l, r = Some l ∧ l ≠ "") ∧
    (evs = [] ∨ ∃ msg, evs = [EvWarning msg]) ∧
    session s' = session s.
Proof.
  destruct (fetch_product_link_trace gtin s) as (r & evs & Hrun & Hr & Hevs).
  eexists r, evs, _. split; [exact Hrun|].
  unfold new_events. simpl. by rewrite drop_app_length.
Qed.

(** X2. When the search request fails, or the parser raises on the answer,
    [fetch_product_link] returns [None] after one warning that names the
    identifier and carries the message of the error. *)
Theorem fetch_product_link_failure gtin (s : St W) msg w' :
  (http_get (search_endpoint gtin) (world s) = (HttpFail msg, w') ∨
   ∃ c cls, http_get (search_endpoint gtin) (world s) = (HttpOk c, w') ∧
            parse_html c = inl (Exn cls msg)) →
  ∃ text,
    fetch_product_link gtin s =
      (Ret None,
       mkSt w' (trace s ++ [EvFetchLink gtin; EvHttpGet (search_endpoint gtin);
                            EvWarning (text +:+ gtin +:+ ": " +:+ msg)])
            (session s)) ∧
    (text = "Error fetching data for GTIN " ∨ text = "Error parsing response for GTIN ").
Proof.
  unfold fetch_product_link, requests_get, st_warning, search_endpoint. unfold_m. simpl.
  intros [Hget|(c & cls & Hget & Hparse)]; rewrite Hget; simpl.
  - eexists. split; [rewrite <- !app_assoc; reflexivity|]. by left.
  - rewrite Hparse. simpl. eexists. split; [rewrite <- !app_assoc; reflexivity|]. by right.
Qed.

(** X3. When the answer of the search is parsed and lacks the suggestions
    container, or the container lacks the product link, or the link has no
    [href] or an empty one, [fetch_product_link] returns [None] and shows no
    warning. *)
Theorem fetch_product_link_no_match gtin (s : St W) c w' soup :
  http_get (search_endpoint gtin) (world s) = (HttpOk c, w') →
  parse_html c = inr soup →
  (find soup (DivClass "c-suggest-popular dx_suggest-products") = None ∨
   ∃ pc, find soup (DivClass "c-suggest-popular dx_suggest-products") = Some pc ∧
         (find pc (AClass "c-option suggested-product") = None ∨
          ∃ pl, find pc (AClass "c-option suggested-product") = Some pl ∧
                (get_attr pl "href" = None ∨ get_attr pl "href" = Some ""))) →
  fetch_product_link gtin s =
    (Ret None,
     mkSt w' (trace s ++ [EvFetchLink gtin; EvHttpGet (search_endpoint gtin)]) (session s)).
Proof.
  intros Hget Hparse Hcase.
  unfold fetch_product_link, requests_get, st_warning, search_endpoint in *.
  unfold_m. simpl. rewrite Hget. simpl. rewrite Hparse. simpl.
  destruct Hcase as [->|(pc & -> & [->|(pl & -> & [->| ->])])]; simpl;
    by rewrite <- !app_assoc.
Qed.

(** Shape of every run of [fetch_product_details]. *)
Lemma fetch_product_details_trace url (s : St W) :
  ∃ r evs,
    fetch_product_details url s =
      (Ret r, mkSt (http_get url (world s)).2
                   (trace s ++ EvFetchDetails url :: EvHttpGet url :: evs)
                   (session s)) ∧
    (evs = [] ∨ ∃ msg, evs = [EvWarning msg] ∧ r = (None, None)).
Proof.
  unfold fetch_product_details, requests_get, st_warning. unfold_m. simpl.
  destruct (http_get _ _) as [[c|m] w'] eqn:Hget; simpl.
  2: { eexists _, _. split; [rewrite <- !app_assoc; reflexivity|]. right. by eexists. }
  destruct (parse_html c) as [e|soup]; simpl.
  - eexists _, _. split; [rewrite <- !app_assoc; reflexivity|]. right. by eexists.
  - eexists _, _. split; [rewrite <- !app_assoc; reflexivity|]. by left.
Qed.

(** X4. When the request for the detail page fails, or the parser raises
    on the page, [fetch_product_details] returns [(None, None)] after one
    warning that names the address and carries the message of the error. *)
Theorem fetch_product_details_failure url (s : St W) msg w' :
  (http_get url (world s) = (HttpFail msg, w') ∨
   ∃ c cls, http_get url (world s) = (HttpOk c, w') ∧
            parse_html c = inl (Exn cls msg)) →
  ∃ text,
    fetch_product_details url s =
      (Ret (None, None),
       mkSt w' (trace s ++ [EvFetchDetails url; EvHttpGet url;
                            EvWarning (text +:+ url +:+ ": " +:+ msg)])
            (session s)) ∧
    (text = "Error fetching product details for URL " ∨
     text = "Error parsing product details for URL ").
Proof.
  unfold fetch_product_details, requests_get, st_warning. unfold_m. simpl.
  intros [Hget|(c & cls & Hget & Hparse)]; rewrite Hget; simpl.
  - eexists. split; [rewrite <- !app_assoc; reflexivity|]. by left.
  - rewrite Hparse. simpl. eexists. split; [rewrite <- !app_assoc; reflexivity|]. by right.
Qed.

(** X22. [fetch_product_details] never raises. It makes one request, to
    the address it is given. Either it shows no warning and returns a
    description that is a string, possibly empty, or it shows one warning
    and returns [(None, None)]. *)
Theorem fetch_product_details_result url (s : St W) :
  ∃ r evs s',
    fetch_product_details url s = (Ret r, s') ∧
    new_events s s' = EvFetchDetails url :: EvHttpGet url :: evs ∧
    ((evs = [] ∧ ∃ d, r.1 = Some d) ∨ (∃ msg, evs = [EvWarning msg] ∧ r = (None, None))) ∧
    session s' = session s.
Proof.
  unfold fetch_product_details, requests_get, st_warning, new_events. unfold_m. simpl.
  destruct (http_get _ _) as [[c|m] w'] eqn:Hget; simpl.
  2: { eexists _, _, _. split; [reflexivity|]. simpl.
       rewrite <- !app_assoc, drop_app_length. split; [reflexivity|].
       split; [right; by eexists|done]. }
  destruct (parse_html c) as [e|soup]; simpl.
  - eexists _, _, _. split; [reflexivity|]. simpl.
    rewrite <- !app_assoc, drop_app_length. split; [reflexivity|].
    split; [right; by eexists|done].
  - eexists _, _, _. split; [reflexivity|]. simpl.
    rewrite <- !app_assoc, drop_app_length. split; [reflexivity|].
    split; [left; split; [done|by eexists]|done].
Qed.
End ScraperFacts.

(** ** Phase 1 as a whole *)

Section Phase1Extras.
Context {W : Type} `{!Web W} `{!HtmlParser} `{!FloatText}.

Lemma count_events_app p a b :
  count_events p (a ++ b) = (count_events p a + count_events p b)%nat.
Proof. unfold count_events. by rewrite List.filter_app, length_app. Qed.

Lemma count_events_concat_eq p evss k :
  Forall (λ evs, count_events p evs = k) evss →
  count_events p (concat evss) = (k * length evss)%nat.
Proof.
  induction 1 as [|evs evss Hk _ IH]; simpl; [unfold count_events; simpl; lia|].
  rewrite count_events_app, IH, Hk. lia.
Qed.

Lemma count_events_concat_le p evss k :
  Forall (λ evs, (count_events p evs ≤ k)%nat) evss →
  (count_events p (concat evss) ≤ k * length evss)%nat.
Proof.
  induction 1 as [|evs evss Hk _ IH]; simpl; [unfold count_events; simpl; lia|].
  rewrite count_events_app. lia.
Qed.

(** A loop whose body always returns adds the events of its iterations. *)
Lemma for_each_traces {A B} (body : A → M W B) (l : list A) (Q : list event → Prop) :
  (∀ x (s : St W), x ∈ l → ∃ y evs w',
      body x s = (Ret y, mkSt w' (trace s ++ evs) (session s)) ∧ Q evs) →
  ∀ s, ∃ ys evss w',
    for_each body l s = (Ret ys, mkSt w' (trace s ++ concat evss) (session s)) ∧
    length ys = length l ∧ length evss = length l ∧ Forall Q evss.
Proof.
  induction l as [|x l IH]; intros Hbody s.
  - exists [], [], (world s). simpl. unfold ret. rewrite app_nil_r. destruct s. done.
  - destruct (Hbody x s) as (y & evs & w1 & Hx & HQ); [left|].
    destruct (IH (λ x s Hin, Hbody x s (list_elem_of_further _ _ _ Hin))
                 (mkSt w1 (trace s ++ evs) (session s)))
      as (ys & evss & w2 & Hl & Hlen & Hlen' & HQs).
    exists (y :: ys), (evs :: evss), w2.
    rewrite for_each_cons, Hx, Hl. simpl. rewrite app_assoc.
    split; [done|]. split; [lia|]. split; [lia|]. by constructor.
Qed.

Lemma scrape_row_events df i g (s : St W) :
  df_cell df i "GTIN" = Some g →
  ∃ r evs w',
    scrape_row df i s = (Ret r, mkSt w' (trace s ++ evs) (session s)) ∧
    row_events_ok evs.
Proof.
  intros Hg. unfold scrape_row, row_get. rewrite Hg.
  destruct (fetch_product_link_trace (strip (py_str g)) s) as (link & evs & Hl & _ & Hevs).
  unfold bind at 1 2. unfold ret at 1. rewrite Hl.
  set (s1 := mkSt _ _ _).
  destruct link as [l|]; [destruct (py_truthy (PyStr l))|].
  - destruct (fetch_product_details_trace l s1) as (r & evs' & Hd & Hevs').
    unfold bind at 1. rewrite Hd. unfold_m. simpl.
    eexists _, _, _. split; [rewrite <- !app_assoc; reflexivity|].
    destruct Hevs as [->|[m ->]]; destruct Hevs' as [->|[m' [-> _]]];
      unfold row_events_ok, count_events; simpl; lia.
  - unfold_m. simpl.
    eexists _, _, _. split; [rewrite <- !app_assoc; reflexivity|].
    destruct Hevs as [->|[m ->]]; unfold row_events_ok, count_events; simpl; lia.
  - unfold_m. simpl.
    eexists _, _, _. split; [rewrite <- !app_assoc; reflexivity|].
    destruct Hevs as [->|[m ->]]; unfold row_events_ok, count_events; simpl; lia.
Qed.

Lemma link_row_events df i g (s : St W) :
  df_cell df i "GTIN" = Some g →
  ∃ r evs w',
    link_row df i s = (Ret r, mkSt w' (trace s ++ evs) (session s)) ∧
    link_events_ok evs.
Proof.
  intros Hg. unfold link_row, row_get. rewrite Hg.
  destruct (fetch_product_link_trace (py_str g) s) as (link & evs & Hl & _ & Hevs).
  unfold bind, ret. rewrite Hl.
  eexists _, _, _. split; [reflexivity|].
  destruct Hevs as [->|[m ->]]; unfold link_events_ok, count_events; simpl; lia.
Qed.

Lemma mul_column_length k l ps : mul_column k l = inr ps → length ps = length l.
Proof.
  revert ps. induction l as [|v l IH]; intros ps; simpl; [by intros [= <-]|].
  destruct (mul_cell k v); [done|].
  destruct (mul_column k l) as [|xs]; [done|].
  intros [= <-]. simpl. by rewrite (IH xs).
Qed.

(** The run of Phase 1 with the events of its two loops. *)
Lemma phase1_events df (s : St W) :
  df_wf df → missing_cols df = [] →
  numeric_column df "€ Price inc. shipping" →
  ∃ scraped links prices evss1 evss2 w2,
    phase1 df s =
      (Ret (phase1_table df scraped links prices),
       mkSt w2 (trace s ++ concat evss1 ++ concat evss2) (session s)) ∧
    length scraped = nrows df ∧ length links = nrows df ∧ length prices = nrows df ∧
    length evss1 = nrows df ∧ length evss2 = nrows df ∧
    Forall row_events_ok evss1 ∧ Forall link_events_ok evss2.
Proof.
  intros Hwf Hm (cost & Hcost & Hnum).
  pose proof (gtin_cells df Hwf Hm) as Hg.
  destruct (for_each_traces (scrape_row df) (iterrows df) row_events_ok) with (s := s)
    as (scraped & evss1 & w1 & Hs & Hlen1 & Hlen1' & HQ1).
  { intros i s0 Hi. destruct (Hg i Hi) as [g Hgi]. by apply (scrape_row_events df i g). }
  destruct (for_each_traces (link_row df) (iterrows df) link_events_ok)
    with (s := mkSt w1 (trace s ++ concat evss1) (session s))
    as (links & evss2 & w2 & Hl & Hlen2 & Hlen2' & HQ2).
  { intros i s0 Hi. destruct (Hg i Hi) as [g Hgi]. by apply (link_row_events df i g). }
  destruct (mul_column_numeric markup cost Hnum) as (prices & Hp & _).
  simpl in Hl. unfold iterrows in *. rewrite length_seq in *.
  exists scraped, links, prices, evss1, evss2, w2.
  split; [|repeat split; try done].
  - unfold phase1. unfold bind at 1. unfold iterrows. rewrite Hs.
    unfold bind at 1. rewrite Hl.
    unfold df_col_mul. rewrite !df_col_set_ne, Hcost by done.
    unfold bind, lift_res, ret. rewrite Hp. by rewrite <- app_assoc.
  - rewrite (mul_column_length _ _ _ Hp).
    apply (df_wf_col df "€ Price inc. shipping" cost Hwf Hcost).
Qed.

(** X5. Phase 1 sleeps once per row, makes between two and three requests
    per row (two lookups and at most one detail page), never calls the
    commerce platform, and leaves the table of the session alone. *)
Theorem phase1_requests_and_sleeps df (s : St W) :
  df_wf df → missing_cols df = [] →
  numeric_column df "€ Price inc. shipping" →
  ∃ df' s',
    phase1 df s = (Ret df', s') ∧
    count_events is_sleep (new_events s s') = nrows df ∧
    (2 * nrows df ≤ count_events is_http_get (new_events s s') ≤ 3 * nrows df)%nat ∧
    count_events is_shop_event (new_events s s') = 0%nat ∧
    session s' = session s.
Proof.
  intros Hwf Hm Hnum.
  destruct (phase1_events df s Hwf Hm Hnum)
    as (scraped & links & prices & evss1 & evss2 & w2 & Hrun & _ & _ & _ & H1 & H2 & HQ1 & HQ2).
  eexists _, _. split; [exact Hrun|].
  rewrite new_events_app, !count_events_app.
  assert (count_events is_sleep (concat evss1) = (1 * length evss1)%nat) as ->.
  { apply count_events_concat_eq. eapply Forall_impl; [exact HQ1|]. by intros ? (? & ? & ?). }
  assert (count_events is_sleep (concat evss2) = (0 * length evss2)%nat) as ->.
  { apply count_events_concat_eq. eapply Forall_impl; [exact HQ2|]. by intros ? (? & ? & ?). }
  assert (count_events is_shop_event (concat evss1) = (0 * length evss1)%nat) as ->.
  { apply count_events_concat_eq. eapply Forall_impl; [exact HQ1|]. by intros ? (? & ? & ?). }
  assert (count_events is_shop_event (concat evss2) = (0 * length evss2)%nat) as ->.
  { apply count_events_concat_eq. eapply Forall_impl; [exact HQ2|]. by intros ? (? & ? & ?). }
  assert (count_events is_http_get (concat evss2) = (1 * length evss2)%nat) as ->.
  { apply count_events_concat_eq. eapply Forall_impl; [exact HQ2|]. by intros ? (? & ? & ?). }
  assert (count_events is_http_get (concat evss1) ≤ 2 * length evss1)%nat.
  { apply count_events_concat_le. eapply Forall_impl; [exact HQ1|]. intros ? (? & ? & ?). lia. }
  assert (1 * length evss1 ≤ count_events is_http_get (concat evss1))%nat.
  { clear -HQ1. induction HQ1 as [|evs evss (? & ? & ?) _ IH]; simpl;
      [unfold count_events; simpl; lia|].
    rewrite count_events_app. lia. }
  simpl. repeat split; lia.
Qed.

Lemma assoc_not_column {A} k (l : list (string * A)) :
  existsb (String.eqb k) (map fst l) = false → assoc k l = None.
Proof.
  induction l as [|[k' v] l IH]; simpl; [done|].
  destruct (String.eqb k k'); simpl; [done|]. exact IH.
Qed.

Lemma assoc_set_fresh {A} k (v : A) l :
  assoc k l = None → assoc_set k v l = l ++ [(k, v)].
Proof.
  induction l as [|[k' v'] l IH]; simpl; [done|].
  destruct (String.eqb k k'); [done|]. intros Hk. by rewrite IH.
Qed.

Lemma assoc_app {A} k (l l' : list (string * A)) :
  assoc k (l ++ l') = match assoc k l with Some v => Some v | None => assoc k l' end.
Proof.
  induction l as [|[k' v'] l IH]; simpl; [done|].
  by destruct (String.eqb k k').
Qed.

(** X6. Phase 1 returns a well-formed table with the rows of its input. It
    leaves every column unchanged except "Link", "Description", "Image_URL"
    and "Selling Price", which it fills with one cell per row; when the
    input has none of the four they are appended in this order. *)
Theorem phase1_keeps_input_columns df (s : St W) :
  df_wf df → missing_cols df = [] →
  numeric_column df "€ Price inc. shipping" →
  ∃ df' s',
    phase1 df s = (Ret df', s') ∧
    df_wf df' ∧ nrows df' = nrows df ∧
    (∀ c, c ∉ derived_cols → df_col df' c = df_col df c) ∧
    (∀ c, c ∈ derived_cols → ∃ l, df_col df' c = Some l ∧ length l = nrows df) ∧
    ((∀ c, c ∈ derived_cols → has_column df c = false) →
     df_columns df' = df_columns df ++ derived_cols).
Proof.
  intros Hwf Hm Hnum.
  destruct (phase1_events df s Hwf Hm Hnum)
    as (scraped & links & prices & evss1 & evss2 & w2 & Hrun & Hl1 & Hl2 & Hl3 & _).
  eexists _, _. split; [exact Hrun|].
  split; [|split; [done|split; [|split]]].
  - unfold phase1_table.
    repeat apply df_set_col_wf; try done; simpl; by rewrite length_map.
  - intros c Hc. unfold derived_cols in Hc.
    apply not_elem_of_cons in Hc as [H1 Hc]. apply not_elem_of_cons in Hc as [H2 Hc].
    apply not_elem_of_cons in Hc as [H3 Hc]. apply not_elem_of_cons in Hc as [H4 _].
    unfold phase1_table. by rewrite !df_col_set_ne.
  - intros c Hc. unfold derived_cols in Hc. unfold phase1_table.
    apply elem_of_cons in Hc as [->|Hc]; [|apply elem_of_cons in Hc as [->|Hc];
      [|apply elem_of_cons in Hc as [->|Hc]; [|apply elem_of_cons in Hc as [->|Hc]]]].
    + rewrite !df_col_set_ne, df_col_set_eq by done. eexists. split; [done|].
      by rewrite length_map.
    + rewrite !df_col_set_ne, df_col_set_eq by done. eexists. split; [done|].
      by rewrite length_map.
    + rewrite !df_col_set_ne, df_col_set_eq by done. eexists. split; [done|].
      by rewrite length_map.
    + rewrite df_col_set_eq. eauto.
    + by apply not_elem_of_nil in Hc.
  - intros Hfresh. unfold df_columns, phase1_table, df_set_col, has_column, df_columns in *.
    simpl.
    rewrite (assoc_set_fresh "Link" _ (cols df))
      by (apply assoc_not_column, Hfresh; unfold derived_cols; repeat constructor).
    rewrite (assoc_set_fresh "Description")
      by (rewrite assoc_app, assoc_not_column;
          [done|apply Hfresh; unfold derived_cols; repeat constructor]).
    rewrite (assoc_set_fresh "Image_URL")
      by (rewrite !assoc_app, assoc_not_column;
          [done|apply Hfresh; unfold derived_cols; repeat constructor]).
    rewrite (assoc_set_fresh "Selling Price")
      by (rewrite !assoc_app, assoc_not_column;
          [done|apply Hfresh; unfold derived_cols; repeat constructor]).
    rewrite !map_app, <- !app_assoc. done.
Qed.

End Phase1Extras.

(** ** The uploader and Phase 2 *)

Section UploadExtras.
Context {W : Type} `{!Shop W} `{!FloatText}.

(** Shape of every run of [upload_product]. *)
Lemma upload_product_shape name description price image_url sku inventory (s : St W) :
  ∃ res evs w',
    upload_product name description price image_url sku inventory s =
      (Ret res,
       mkSt w' (trace s ++ EvProductSave (build_product name description price image_url sku)
                        :: evs) (session s)) ∧
    ((∃ pid loc item,
        res = (true, Some pid, ErrNone) ∧
        evs = [EvLocationFind; EvInventorySet loc item inventory]) ∨
     (∃ err,
        res = (false, None, err) ∧ err ≠ ErrNone ∧
        (evs = [] ∨ evs = [EvLocationFind] ∨
         ∃ loc item, evs = [EvLocationFind; EvInventorySet loc item inventory]))).
Proof.
  unfold upload_product, upload_product_body, first. unfold_m. simpl.
  destruct (shop_save _ _) as [[e|[pid items|msgs]] w1]; simpl.
  2: destruct items as [|item items]; simpl.
  3: destruct (shop_locations w1) as [[e|[|loc locs]] w2]; simpl.
  5: destruct (shop_inventory_set _ _ _ _) as [[e|[]] w3]; simpl.
  all: eexists _, _, _; split; [rewrite <- ?app_assoc; reflexivity|].
  6: { left. by eexists _, _, _. }
  all: right; eexists; split; [reflexivity|]; split; [done|]; eauto.
Qed.

(** X8. When the platform accepts the product, lists at least one location
    and takes the inventory level, [upload_product] returns success with the
    new product id and no error; it sets the inventory of the first
    variant's item at the first location to the given count, and makes no
    other call than the save, the location lookup and this one. *)
Theorem upload_product_success
    name description price image_url sku inventory (s : St W)
    pid item items loc locs w1 w2 w3 :
  shop_save (build_product name description price image_url sku) (world s)
    = (inr (Accepted pid (item :: items)), w1) →
  shop_locations w1 = (inr (loc :: locs), w2) →
  shop_inventory_set loc item inventory w2 = (inr tt, w3) →
  upload_product name description price image_url sku inventory s =
    (Ret (true, Some pid, ErrNone),
     mkSt w3
          (trace s ++ [EvProductSave (build_product name description price image_url sku);
                       EvLocationFind; EvInventorySet loc item inventory])
          (session s)).
Proof.
  intros Hsave Hloc Hset.
  unfold upload_product, upload_product_body, first. unfold_m. simpl.
  rewrite Hsave. simpl. rewrite Hloc. simpl. rewrite Hset. simpl.
  by rewrite <- !app_assoc.
Qed.

(** X9. Every call of [upload_product] saves the product exactly once, as
    its first call to the platform, and deletes nothing. Its result is
    either success with a product id and no error, reported only after the
    inventory level was set, or failure with no product id and an error. *)
Theorem upload_product_result_shape
    name description price image_url sku inventory (s : St W) :
  ∃ res evs s',
    upload_product name description price image_url sku inventory s = (Ret res, s') ∧
    new_events s s'
      = EvProductSave (build_product name description price image_url sku) :: evs ∧
    saves evs = 0%nat ∧ count_events is_destroy evs = 0%nat ∧
    ((∃ pid loc item,
        res = (true, Some pid, ErrNone) ∧
        last evs = Some (EvInventorySet loc item inventory)) ∨
     (∃ err, res = (false, None, err) ∧ err ≠ ErrNone)).
Proof.
  destruct (upload_product_shape name description price image_url sku inventory s)
    as (res & evs & w' & Hrun & Hshape).
  eexists res, evs, _. split; [exact Hrun|].
  split; [unfold new_events; simpl; by rewrite drop_app_length|].
  destruct Hshape as [(pid & loc & item & -> & ->)|(err & -> & Hne & Hevs)].
  - split; [done|]. split; [done|]. left. by eexists _, _, _.
  - assert (saves evs = 0%nat ∧ count_events is_destroy evs = 0%nat) as [? ?].
    { destruct Hevs as [->|[->|(loc & item & ->)]]; done. }
    split; [done|]. split; [done|]. right. eauto.
Qed.

(** X10. When [upload_product] fails for a row, for whatever reason, the
    loop body sets the row's "Upload Status" to "Failed: " followed by the
    text of the error, logs the failure with the product's name, and
    changes no other cell, the row's "Product ID" included. *)
Theorem failed_upload_is_recorded df idx (s : St W) sess
    name description price image_url sku qty product_id err :
  row_ready df idx name description price image_url sku qty →
  session s = Some sess →
  is_Some (df_cell sess idx "Upload Status") →
  (upload_product name description price image_url sku qty s).1
    = Ret (false, product_id, err) →
  ∃ sess' s',
    upload_row df idx s = (Ret tt, s') ∧ session s' = Some sess' ∧
    df_cell sess' idx "Upload Status" = Some (PyStr ("Failed: " +:+ error_str err)) ∧
    (∀ j c, j ≠ idx ∨ c ≠ "Upload Status" → df_cell sess' j c = df_cell sess j c) ∧
    last (trace s')
      = Some (EvLogError ("Failed to upload product " +:+ py_str name +:+ ": "
                          +:+ error_str err)).
Proof.
  intros Hready Hs Hstatus Hres.
  destruct (upload_product_spec name description price image_url sku qty s)
    as (res & evs & w' & Hup & _).
  rewrite Hup in Hres. simpl in Hres. injection Hres as ->.
  rewrite (upload_row_ready _ _ _ _ _ _ _ _ _ Hready).
  unfold bind at 1. rewrite Hup.
  unfold record_upload. unfold_m. simpl. rewrite Hs. simpl.
  eexists _, _. split; [reflexivity|]. split; [done|]. simpl.
  split; [by apply df_cell_set_at_eq|]. split.
  - intros j c [Hj|Hc]; [by apply df_cell_set_at_ne_row|by apply df_cell_set_at_ne_col].
  - by rewrite last_snoc.
Qed.


Lemma count_events_app' p a b :
  count_events p (a ++ b) = (count_events p a + count_events p b)%nat.
Proof. unfold count_events. by rewrite List.filter_app, length_app. Qed.

Lemma upload_row_events df idx name description price image_url sku qty (s : St W) sess :
  row_ready df idx name description price image_url sku qty →
  session s = Some sess →
  ∃ evs w' sess',
    upload_row df idx s = (Ret tt, mkSt w' (trace s ++ evs) (Some sess')) ∧
    upload_events_ok evs.
Proof.
  intros Hready Hs. rewrite (upload_row_ready _ _ _ _ _ _ _ _ _ Hready).
  destruct (upload_product_shape name description price image_url sku qty s)
    as (res & evs & w' & Hup & Hshape).
  unfold bind. rewrite Hup.
  destruct (record_upload_spec idx name res
              (mkSt w' (trace s ++ EvProductSave (build_product name description price image_url sku)
                                :: evs) (session s)) sess Hs) as [ev Hrec].
  rewrite Hrec. simpl.
  exists (EvProductSave (build_product name description price image_url sku) :: evs ++ [ev]),
         w', (recorded sess idx res).
  split; [by rewrite <- app_assoc|].
  assert (is_save ev = false ∧ is_destroy ev = false ∧ is_session_event ev = false)
    as (He1 & He2 & He3).
  { destruct res as [[[] pid] err]; unfold record_upload in Hrec; unfold_m; simpl in Hrec;
      rewrite Hs in Hrec; simpl in Hrec; injection Hrec as Hev;
      apply app_inv_head in Hev; injection Hev as <-; done. }
  unfold upload_events_ok, saves, count_events. simpl.
  rewrite !List.filter_app, !length_app. simpl. rewrite He1, He2, He3. simpl.
  destruct Hshape as [(pid & loc & item & _ & ->)|(err & _ & _ & [->|[->|(loc & item & ->)]])];
    done.
Qed.

Lemma upload_loop_events df l (s : St W) sess :
  (∀ i, i ∈ l → ∃ name description price image_url sku qty,
                  row_ready df i name description price image_url sku qty) →
  session s = Some sess →
  ∃ rs evss w' sess',
    for_each (upload_row df) l s = (Ret rs, mkSt w' (trace s ++ concat evss) (Some sess')) ∧
    length evss = length l ∧ Forall upload_events_ok evss.
Proof.
  revert s sess. induction l as [|i l IH]; intros s sess Hready Hs.
  - exists [], [], (world s), sess. simpl. unfold ret. rewrite app_nil_r.
    destruct s; simpl in *; subst. done.
  - destruct (Hready i) as (name & description & price & image_url & sku & qty & Hr); [left|].
    destruct (upload_row_events df i _ _ _ _ _ _ s sess Hr Hs) as (evs & w1 & sess1 & Hrow & Hok).
    destruct (IH (mkSt w1 (trace s ++ evs) (Some sess1)) sess1)
      as (rs & evss & w2 & sess2 & Hloop & Hlen & Hoks).
    { intros j Hj. apply Hready. by right. }
    { done. }
    exists (tt :: rs), (evs :: evss), w2, sess2.
    rewrite for_each_cons, Hrow, Hloop. simpl. rewrite app_assoc.
    split; [done|]. split; [lia|]. by constructor.
Qed.

(** X12. With a table in the session whose rows can all be converted,
    Phase 2 opens the platform session with the given credentials before
    anything else, then makes exactly one [product.save()] per row and no
    deletion, and only after the last row closes the session and offers the
    final table for download. *)
Theorem phase2_session_bracket shop_url api_version api_token (s : St W) sess :
  session s = Some sess → rows_ready sess →
  ∃ evs s' sess',
    phase2 shop_url api_version api_token s = (Ret tt, s') ∧
    session s' = Some sess' ∧
    new_events s s'
      = EvSessionActivate shop_url api_version api_token
        :: evs ++ [EvSessionClear; EvDownload "uploaded_data.csv" (to_csv sess')] ∧
    saves evs = nrows sess ∧
    count_events is_destroy evs = 0%nat ∧
    count_events is_session_event evs = 0%nat.
Proof.
  intros Hs Hready.
  set (sess1 := ensured sess "Product ID" PyNone).
  set (sess2 := ensured sess1 "Upload Status" (PyStr "Pending")).
  assert (nrows sess2 = nrows sess) as Hn.
  { unfold sess2, sess1. by rewrite !ensured_nrows. }
  destruct (upload_loop_events sess2 (iterrows sess2)
              (mkSt (world s) (trace s ++ [EvSessionActivate shop_url api_version api_token])
                    (Some sess2)) sess2)
    as (rs & evss & w' & sess' & Hloop & Hlen & Hoks).
  { intros i Hi. apply elem_of_seq in Hi.
    destruct (Hready i) as (n & d & p & im & k & q & Hr); [lia|].
    exists n, d, p, im, k, q. eapply row_ready_ext; [|exact Hr].
    intros c H1 H2. unfold sess2, sess1. by rewrite !ensured_cell_ne. }
  { done. }
  exists (concat evss). eexists _, sess'. split; [|split; [|split; [|split; [|split]]]].
  - unfold phase2. unfold bind at 1. unfold emit at 1.
    unfold bind at 1.
    rewrite (ensure_column_spec "Product ID" PyNone _ sess) by done.
    unfold bind at 1. simpl.
    rewrite (ensure_column_spec "Upload Status" (PyStr "Pending") _ sess1) by done.
    fold sess2. unfold bind at 1. unfold get_session at 1. simpl.
    unfold bind at 1. rewrite Hloop. unfold bind, emit, get_session. simpl.
    reflexivity.
  - done.
  - unfold new_events. simpl. rewrite <- !app_assoc. by rewrite drop_app_length.
  - unfold iterrows in Hlen. rewrite length_seq, Hn in Hlen. rewrite <- Hlen.
    clear -Hoks. induction Hoks as [|evs evss (H1 & _ & _) _ IH]; simpl; [done|].
    unfold saves in *. rewrite List.filter_app, length_app. lia.
  - clear -Hoks. induction Hoks as [|evs evss (_ & H1 & _) _ IH]; simpl; [done|].
    rewrite count_events_app'. lia.
  - clear -Hoks. induction Hoks as [|evs evss (_ & _ & H1) _ IH]; simpl; [done|].
    rewrite count_events_app'. lia.
Qed.

(** X13. With a well-formed table in the session whose rows can all be
    converted, Phase 2 changes no cell outside the columns "Product ID" and
    "Upload Status", whatever the platform answers. *)
Theorem phase2_touches_result_columns_only shop_url api_version api_token (s : St W) sess :
  session s = Some sess → df_wf sess → rows_ready sess →
  ∃ s' sess',
    phase2 shop_url api_version api_token s = (Ret tt, s') ∧
    session s' = Some sess' ∧
    ∀ i c, c ≠ "Product ID" → c ≠ "Upload Status" → df_cell sess' i c = df_cell sess i c.
Proof.
  intros Hs Hwf Hready.
  destruct (phase2_returns shop_url api_version api_token s sess Hs Hwf Hready)
    as (s' & sess' & Hrun & Hs' & _ & Hsame).
  eauto.
Qed.
End UploadExtras.

(** ** Errors inside the scrape run *)

Section MainExtras.
Context {W : Type} `{!Web W} `{!HtmlParser} `{!Shop W} `{!FloatText}.

Lemma mul_column_error k l :
  Exists (λ v, numeric_value v = None) l →
  ∃ e, mul_column k l = inl e ∧ exn_cls e = TypeError.
Proof.
  induction l as [|v l IH]; intros Hex; [by apply Exists_nil in Hex|].
  simpl. unfold mul_cell.
  destruct (numeric_value v) as [f|] eqn:Hv.
  - apply Exists_cons in Hex as [Hex|Hex]; [congruence|].
    destruct (IH Hex) as (e & -> & He). eauto.
  - destruct v; simpl in Hv; try done; eauto.
Qed.

(** X14. When the cost column of the uploaded file holds a cell that is
    not a number, the scrape run still makes the two lookups of every row,
    then fails at the price computation: [main] does not raise, ends with
    the error "Error reading or processing file: ..." that carries the
    message of the TypeError, and leaves the table of the session as it
    was. *)
Theorem scrape_run_fails_on_text_cost ui file df cost (s : St W) :
  uploaded_file ui = Some file → read_csv file = inr df →
  df_wf df → missing_cols df = [] →
  df_col df "€ Price inc. shipping" = Some cost →
  Exists (λ v, numeric_value v = None) cost →
  scrape_clicked ui = true → upload_clicked ui = false →
  ∃ e s',
    main ui s = (Ret tt, s') ∧
    exn_cls e = TypeError ∧
    last (trace s') = Some (EvError ("Error reading or processing file: " +:+ exn_msg e)) ∧
    lookups (new_events s s') = (2 * nrows df)%nat ∧
    session s' = session s.
Proof.
  intros Hfile Hread Hwf Hm Hcost Hex Hscrape Hupload.
  pose proof (gtin_cells df Hwf Hm) as Hg.
  destruct (for_each_spec (scrape_row df) (iterrows df) 1) with (s := s)
    as (scraped & evs1 & w1 & Hs & _ & Hn1).
  { intros i s0 Hi. destruct (Hg i Hi) as [g Hgi]. apply (scrape_row_spec df i g s0 Hgi). }
  destruct (for_each_spec (link_row df) (iterrows df) 1)
    with (s := mkSt w1 (trace s ++ evs1) (session s))
    as (links & evs2 & w2 & Hl & _ & Hn2).
  { intros i s0 Hi. destruct (Hg i Hi) as [g Hgi]. apply (link_row_spec df i g s0 Hgi). }
  destruct (mul_column_error markup cost Hex) as (e & He & Hcls).
  simpl in Hl.
  assert (phase1 df s = (Raise e, mkSt w2 ((trace s ++ evs1) ++ evs2) (session s))) as Hrun.
  { unfold phase1. unfold bind at 1. rewrite Hs. unfold bind at 1. rewrite Hl.
    unfold df_col_mul. rewrite !df_col_set_ne, Hcost by done.
    unfold bind, lift_res, raise. by rewrite He. }
  exists e,
    (mkSt w2 (((trace s ++ evs1) ++ evs2)
              ++ [EvError ("Error reading or processing file: " +:+ exn_msg e)])
          (session s)).
  split; [|split; [done|split; [|split]]].
  - unfold main, main_file. rewrite Hfile, Hread.
    unfold bind, try_except, lift_res, ret, st_error, emit. cbn beta iota.
    rewrite Hm, Hscrape, Hupload, Hrun. simpl.
    destruct (session s); reflexivity.
  - simpl. by rewrite last_snoc.
  - unfold new_events. simpl. rewrite <- !app_assoc, drop_app_length.
    rewrite !lookups_app, Hn1, Hn2. unfold lookups, iterrows. simpl.
    rewrite length_seq. lia.
  - done.
Qed.

(** X15. The upload run works on the table of the session and never on the
    uploaded file: with the scrape button not clicked, and a file that is
    absent, unreadable, or readable with its required columns, [main] is
    Phase 2 on the session, after at most one error about the file. *)
Theorem upload_run_ignores_file ui (s : St W) sess :
  session s = Some sess →
  scrape_clicked ui = false → upload_clicked ui = true →
  (∀ file df, uploaded_file ui = Some file → read_csv file = inr df →
              missing_cols df = []) →
  ∃ pre,
    main ui s = phase2 (ui_shop_url ui) (ui_api_version ui) (ui_api_token ui)
                       (mkSt (world s) (trace s ++ pre) (session s)) ∧
    (pre = [] ∨
     ∃ file e, uploaded_file ui = Some file ∧ read_csv file = inl e ∧
               pre = [EvError ("Error reading or processing file: " +:+ exn_msg e)]).
Proof.
  intros Hs Hscrape Hupload Hcols.
  unfold main, main_file.
  destruct (uploaded_file ui) as [file|] eqn:Hfile.
  - destruct (read_csv file) as [e|df] eqn:Hread.
    + exists [EvError ("Error reading or processing file: " +:+ exn_msg e)].
      split; [|right; by exists file, e].
      unfold bind, try_except, lift_res, raise, ret, st_error, emit, any_exception.
      simpl. by rewrite Hs, Hupload.
    + exists []. split; [|by left].
      unfold bind, try_except, lift_res, raise, ret, st_error, emit, any_exception.
      cbn beta iota. rewrite (Hcols file df eq_refl Hread), Hscrape. simpl.
      rewrite Hs, Hupload, app_nil_r. destruct s; simpl in *; by subst.
  - exists []. split; [|by left].
    unfold bind, ret. rewrite Hs, Hupload, app_nil_r. destruct s; simpl in *; by subst.
Qed.
End MainExtras.

(** ** A scrape run followed by an upload run *)

Section PipelineFacts.
Context {W : Type} `{!Web W} `{!HtmlParser} `{!Shop W} `{!FloatText}.

Lemma read_csv_wf f df : read_csv f = inr df → df_wf df.
Proof.
  assert (Forall (λ c : string * list pyval, length c.2 = length (records f))
            (imap (λ j name, (name, import_column (csv_column f j))) (header f))) as Hall.
  { apply Forall_forall. intros c Hc.
    apply elem_of_lookup_imap in Hc as (j & name & -> & _). simpl.
    unfold import_column, csv_column. by rewrite !length_map. }
  unfold read_csv. destruct (header f) as [|h hs]; [done|].
  destruct (forallb _ _); [|done]. intros [= <-]. exact Hall.
Qed.

Lemma for_each_length {V A B} (body : A → M V B) l (s : St V) ys s' :
  for_each body l s = (Ret ys, s') → length ys = length l.
Proof.
  revert s ys s'. induction l as [|x l IH]; intros s ys s'.
  - simpl. unfold ret. by intros [= <- _].
  - rewrite for_each_cons. destruct (body x s) as [[y|e] s1]; [|done].
    destruct (for_each body l s1) as [[zs|e] s2] eqn:Hl; [|done].
    intros [= <- _]. simpl. by rewrite (IH s1 zs s2 Hl).
Qed.

Lemma mul_column_floats k l ps :
  mul_column k l = inr ps → Forall (λ v, ∃ f, v = PyFloat f) ps.
Proof.
  revert ps. induction l as [|v l IH]; intros ps; simpl; [by intros [= <-]|].
  unfold mul_cell. destruct (numeric_value v) as [f|].
  - destruct (mul_column k l) as [|xs]; [done|]. intros [= <-].
    constructor; [by eexists|by apply IH].
  - by destruct v.
Qed.

(** The table of Phase 1 can be handed to Phase 2 row by row when its
    inventory cells can. *)
Lemma phase1_rows_ready df (s : St W) :
  df_wf df → missing_cols df = [] →
  numeric_column df "€ Price inc. shipping" →
  inventory_ready df →
  ∃ df' s',
    phase1 df s = (Ret df', s') ∧ session s' = session s ∧
    nrows df' = nrows df ∧ df_wf df' ∧ rows_ready df'.
Proof.
  intros Hwf Hm Hnum Hinv.
  destruct (phase1_returns df s Hwf Hm Hnum)
    as (scraped & s1 & links & s2 & cost & prices & Hs & Hl & Hcost & Hp & Hrun & Hsess & _).
  apply for_each_length in Hs, Hl. unfold iterrows in Hs, Hl. rewrite length_seq in Hs, Hl.
  pose proof (mul_column_length _ _ _ Hp) as Hlen.
  rewrite (df_wf_col df _ cost Hwf Hcost) in Hlen.
  eexists _, _. split; [exact Hrun|]. split; [exact Hsess|]. split; [done|].
  split.
  { unfold phase1_table.
    repeat apply df_set_col_wf; try done; simpl; by rewrite length_map. }
  intros i Hi. simpl in Hi.
  assert (∀ c, c ∈ required_cols → ∃ v, df_cell df i c = Some v) as Hreq.
  { intros c Hc. apply df_wf_cell; [done| |done]. by apply missing_cols_nil. }
  destruct (Hreq "Name") as [name Hname]; [unfold required_cols; repeat constructor|].
  destruct (Hreq "GTIN") as [g Hg]; [unfold required_cols; repeat constructor|].
  destruct (Hreq "Inventory") as [inv Hi']; [unfold required_cols; repeat constructor|].
  destruct (lookup_lt_is_Some_2 (map (λ r, cell_of_opt r.1) scraped) i) as [d Hd];
    [by rewrite length_map, Hs|].
  destruct (lookup_lt_is_Some_2 (map (λ r, cell_of_opt r.2) scraped) i) as [im Him];
    [by rewrite length_map, Hs|].
  destruct (lookup_lt_is_Some_2 prices i) as [sp Hsp]; [by rewrite Hlen|].
  pose proof (mul_column_floats _ _ _ Hp) as Hfl.
  rewrite Forall_lookup in Hfl. destruct (Hfl i sp Hsp) as [f ->].
  exists name, (if pd_notnull d then d else PyStr ""),
    (if negb (pd_isna (PyFloat f)) then f else 0%float),
    (if pd_notnull im then im else PyStr ""), (py_str g),
    (if negb (pd_isna inv) then match py_int inv with inr q => q | inl _ => 0 end else 0).
  exists d, (PyFloat f), im, g, inv. unfold phase1_table.
  split; [by rewrite !df_cell_set_ne by done|].
  split; [by rewrite !df_cell_set_ne, df_cell_set_eq by done|].
  split; [done|].
  split; [by rewrite df_cell_set_eq|].
  split; [by destruct (negb (pd_isna (PyFloat f)))|].
  split; [by rewrite !df_cell_set_ne, df_cell_set_eq by done|].
  split; [done|].
  split; [by rewrite !df_cell_set_ne by done|].
  split; [done|].
  split; [by rewrite !df_cell_set_ne by done|].
  destruct (Hinv i inv Hi') as [Hna|[q Hq]].
  - by rewrite Hna.
  - rewrite Hq. by destruct (negb (pd_isna inv)).
Qed.

(** X16. A scrape run followed by an upload run on the same file goes
    through, whatever the web site and the platform answer, when the file
    has the required columns, a numeric cost column and inventory cells
    that are missing or convertible: neither run raises, and afterwards the
    session table has the rows of the file and an outcome in the status of
    every row. *)
Theorem scrape_then_upload_completes ui1 ui2 file df (s : St W) :
  uploaded_file ui1 = Some file → uploaded_file ui2 = Some file →
  read_csv file = inr df → missing_cols df = [] →
  numeric_column df "€ Price inc. shipping" → inventory_ready df →
  scrape_clicked ui1 = true → upload_clicked ui1 = false →
  scrape_clicked ui2 = false → upload_clicked ui2 = true →
  ∃ s1 s2 sess,
    main ui1 s = (Ret tt, s1) ∧ main ui2 s1 = (Ret tt, s2) ∧
    session s2 = Some sess ∧
    ∀ i, (i < nrows df)%nat →
      status_recorded (df_cell sess i "Upload Status") ∧
      df_cell sess i "GTIN" = df_cell df i "GTIN".
Proof.
  intros Hf1 Hf2 Hread Hm Hnum Hinv Hsc1 Hup1 Hsc2 Hup2.
  pose proof (read_csv_wf file df Hread) as Hwf.
  destruct (phase1_rows_ready df s Hwf Hm Hnum Hinv)
    as (df' & s' & Hrun & Hsess & Hn & Hwf' & Hready).
  set (s1 := mkSt (world s') (trace s' ++ [EvDownload "scraped_data.csv" (to_csv df')])
                  (Some df')).
  destruct (phase2_returns (ui_shop_url ui2) (ui_api_version ui2) (ui_api_token ui2)
              s1 df' eq_refl Hwf' Hready) as (s2 & sess & Hrun2 & Hs2 & Hrec & Hsame).
  assert (∀ i, df_cell df' i "GTIN" = df_cell df i "GTIN") as Hg.
  { intros i.
    destruct (phase1_returns df s Hwf Hm Hnum)
      as (? & ? & ? & ? & ? & ? & _ & _ & _ & _ & Hrun' & _).
    rewrite Hrun in Hrun'. injection Hrun' as -> _.
    unfold phase1_table. by rewrite !df_cell_set_ne by done. }
  exists s1, s2, sess. split; [|split; [|split; [done|]]].
  - unfold main, main_file. rewrite Hf1, Hread.
    unfold bind, try_except, lift_res, ret, set_session, emit. cbn beta iota.
    rewrite Hm, Hsc1, Hup1, Hrun. simpl. done.
  - unfold main, main_file. rewrite Hf2, Hread.
    unfold bind, try_except, lift_res, ret. cbn beta iota.
    rewrite Hm, Hsc2, Hup2. simpl. exact Hrun2.
  - intros i Hi. split; [apply Hrec; lia|].
    by rewrite Hsame, Hg.
Qed.
End PipelineFacts.

(** ** Price update and deactivation *)

Section AdminFacts.
Context {W : Type} `{!ShopAdmin W} `{!FloatText}.

Lemma save_variant_eq new_price v (s : St (W * list admin_call)) :
  save_variant new_price v s =
  let v' := set_price (py_str new_price) v in
  match shop_variant_save v' (world s).1 with
  | (inr r, w') =>
      (Ret r.2, mkSt (w', calls s ++ [CallVariantSave v']) (trace s) (session s))
  | (inl e, w') =>
      (Raise e, mkSt (w', calls s ++ [CallVariantSave v']) (trace s) (session s))
  end.
Proof.
  unfold save_variant, invoke, bind, ret, calls. simpl.
  by destruct (shop_variant_save _ _) as [[e|r] w'].
Qed.

(** The loop over the variants saves a prefix of them, in order, each with
    the new price; it saves them all when it completes. *)
Lemma save_loop_spec new_price vs (s : St (W * list admin_call)) :
  ∃ k w',
    (for_each (save_variant new_price) vs s).2
      = mkSt (w', calls s ++ variant_saves (py_str new_price) (take k vs))
             (trace s) (session s) ∧
    (k ≤ length vs)%nat ∧
    (∀ ys, (for_each (save_variant new_price) vs s).1 = Ret ys →
           k = length vs ∧ length ys = length vs) ∧
    (∀ e, (for_each (save_variant new_price) vs s).1 = Raise e → (0 < k)%nat).
Proof.
  revert s. induction vs as [|v vs IH]; intros s.
  - exists 0%nat, (world s).1. simpl. unfold ret, calls, variant_saves. simpl.
    rewrite app_nil_r. destruct s as [[w l] t d]. simpl.
    split; [done|]. split; [done|]. split; [by intros ys [= <-]|done].
  - rewrite for_each_cons, save_variant_eq. cbn zeta.
    destruct (shop_variant_save _ _) as [[e|r] w1].
    + exists 1%nat, w1. simpl. split; [done|].
      split; [lia|]. split; [done|]. intros; lia.
    + destruct (IH (mkSt (w1, calls s ++ [CallVariantSave (set_price (py_str new_price) v)])
                         (trace s) (session s)))
        as (k & w' & Hst & Hk & Hret & Hraise).
      destruct (for_each _ vs _) as [[ys|e] s2]; simpl in *.
      * exists (S k), w'. subst s2. unfold calls. simpl.
        rewrite <- app_assoc. split; [done|]. split; [lia|].
        split; [|done]. intros ? [= <-]. destruct (Hret ys eq_refl). simpl. lia.
      * exists (S k), w'. subst s2. unfold calls. simpl.
        rewrite <- app_assoc. split; [done|]. split; [lia|].
        split; [done|]. intros; lia.
Qed.

(** X17. [update_product_price] never raises and shows nothing. It asks
    for the product once; if it finds one it saves the variants in their
    order, each with the text of the new price and at most once, and saves
    the product only after every variant was saved, with the id and the
    status that were found. *)
Theorem update_product_price_calls product_id new_price (s : St (W * list admin_call)) :
  ∃ msg cs s',
    update_product_price product_id new_price s = (Ret msg, s') ∧
    new_calls s s' = CallFind product_id :: cs ∧
    trace s' = trace s ∧ session s' = session s ∧
    (cs = [] ∨
     ∃ p k tail,
       (shop_find product_id (world s).1).1 = inr (Some p) ∧
       cs = variant_saves (py_str new_price) (take k (rp_variants p)) ++ tail ∧
       (tail = [] ∨
        ∃ vs, k = length (rp_variants p) ∧ length vs = k ∧
              tail = [CallProductSave (with_variants vs p)])).
Proof.
  unfold update_product_price, try_except, bind, invoke, any_exception, new_calls, calls.
  destruct (shop_find product_id (world s).1) as [[e|[p|]] w1] eqn:Hfind; simpl.
  - eexists _, [], _. unfold ret. split; [done|]. simpl.
    rewrite drop_app_length. repeat split; by left.
  - destruct (save_loop_spec new_price (rp_variants p)
                (mkSt (w1, (world s).2 ++ [CallFind product_id]) (trace s) (session s)))
      as (k & w2 & Hst & Hk & Hret & _).
    destruct (for_each _ _ _) as [[vs|e] s2]; simpl in *; subst s2; simpl.
    + destruct (Hret vs eq_refl) as [-> Hlen].
      unfold calls. simpl.
      destruct (shop_product_save _ w2) as [[e|errors] w3]; simpl.
      * eexists _, _, _. unfold ret. split; [done|]. simpl.
        rewrite <- !app_assoc, drop_app_length. simpl.
        split; [done|]. split; [done|]. split; [done|]. right.
        exists p, (length (rp_variants p)), [CallProductSave (with_variants vs p)].
        split; [done|]. split; [done|]. right. by exists vs.
      * destruct errors; eexists _, _, _; unfold ret; (split; [done|]); simpl;
          rewrite <- !app_assoc, drop_app_length; simpl;
          (split; [done|]); (split; [done|]); (split; [done|]); right;
          exists p, (length (rp_variants p)), [CallProductSave (with_variants vs p)];
          (split; [done|]); (split; [done|]); right; by exists vs.
    + eexists _, _, _. unfold ret. split; [done|]. unfold calls. simpl.
      rewrite <- !app_assoc, drop_app_length. simpl.
      split; [done|]. split; [done|]. split; [done|]. right.
      exists p, k, []. split; [done|]. split; [by rewrite app_nil_r|]. by left.
  - eexists _, [], _. unfold ret. split; [done|]. simpl.
    rewrite drop_app_length. repeat split; by left.
Qed.

(** X18. When the product is found and no save of a variant raises, the
    message of [update_product_price] follows from the answer to the save
    of the product alone, whatever the saves of the variants returned:
    success with the new price, or the failure text with the list of the
    platform's messages. *)
Theorem update_product_price_message product_id new_price (s : St (W * list admin_call))
    p w1 vs s2 errors w3 :
  shop_find product_id (world s).1 = (inr (Some p), w1) →
  for_each (save_variant new_price) (rp_variants p)
    (mkSt (w1, calls s ++ [CallFind product_id]) (trace s) (session s)) = (Ret vs, s2) →
  shop_product_save (with_variants vs p) (world s2).1 = (inr errors, w3) →
  ∃ s',
    update_product_price product_id new_price s =
      (Ret (match errors with
            | None => "Price updated successfully to " +:+ py_str new_price +:+
                      " for product ID " +:+ py_str product_id +:+ "."
            | Some full_messages =>
                "Failed to update price for product ID " +:+ py_str product_id +:+
                ": " +:+ py_str_list full_messages
            end), s') ∧
    new_calls s s'
      = CallFind product_id :: variant_saves (py_str new_price) (rp_variants p)
        ++ [CallProductSave (with_variants vs p)].
Proof.
  intros Hfind Hloop Hsave.
  destruct (save_loop_spec new_price (rp_variants p)
              (mkSt (w1, calls s ++ [CallFind product_id]) (trace s) (session s)))
    as (k & w2 & Hst & _ & Hret & _).
  rewrite Hloop in Hst, Hret. simpl in Hst. destruct (Hret vs eq_refl) as [-> _].
  rewrite firstn_all in Hst. subst s2. simpl in Hsave.
  unfold update_product_price, try_except, bind, invoke, any_exception, new_calls.
  unfold calls in *. rewrite Hfind. simpl. rewrite Hloop. simpl. rewrite Hsave. simpl.
  destruct errors; eexists; unfold ret; (split; [done|]); simpl;
    by rewrite <- !app_assoc, drop_app_length.
Qed.

(** X19. When the save of a variant raises, [update_product_price] stops
    there: the variants after it are not saved, the product is not saved,
    the variants saved before stay saved, and the message is "Error: "
    followed by the message of the exception. *)
Theorem update_product_price_stops_at_exception product_id new_price (s : St (W * list admin_call))
    p w1 pre v post vs s2 e w3 :
  shop_find product_id (world s).1 = (inr (Some p), w1) →
  rp_variants p = pre ++ v :: post →
  for_each (save_variant new_price) pre
    (mkSt (w1, calls s ++ [CallFind product_id]) (trace s) (session s)) = (Ret vs, s2) →
  shop_variant_save (set_price (py_str new_price) v) (world s2).1 = (inl e, w3) →
  ∃ s',
    update_product_price product_id new_price s = (Ret ("Error: " +:+ exn_msg e), s') ∧
    new_calls s s'
      = CallFind product_id :: variant_saves (py_str new_price) (pre ++ [v]).
Proof.
  intros Hfind Hvs Hloop Hsave.
  destruct (save_loop_spec new_price pre
              (mkSt (w1, calls s ++ [CallFind product_id]) (trace s) (session s)))
    as (k & w2 & Hst & _ & Hret & _).
  rewrite Hloop in Hst, Hret. simpl in Hst. destruct (Hret vs eq_refl) as [-> _].
  rewrite firstn_all in Hst. subst s2. simpl in Hsave.
  unfold update_product_price, try_except, bind, invoke, any_exception, new_calls.
  unfold calls in *. rewrite Hfind. simpl. rewrite Hvs, for_each_app, Hloop.
  rewrite for_each_cons, save_variant_eq. cbn zeta. simpl. rewrite Hsave. simpl.
  eexists. unfold ret. split; [done|]. unfold calls, variant_saves. simpl.
  rewrite map_app. simpl. by rewrite <- !app_assoc, drop_app_length.
Qed.

(** Shape of every run of [deactivate_product]. *)
Lemma deactivate_product_shape product_id status (s : St (W * list admin_call)) :
  ∃ msg w',
    deactivate_product product_id status s
      = (Ret msg,
         mkSt (w', calls s ++ CallFind product_id ::
                   match (shop_find product_id (world s).1).1 with
                   | inr (Some p) => [CallProductSave (set_status status p)]
                   | _ => []
                   end)
              (trace s) (session s)).
Proof.
  unfold deactivate_product, try_except, bind, invoke, any_exception, calls, ret.
  destruct (shop_find product_id (world s).1) as [[e|[p|]] w1]; simpl.
  - by eexists _, _.
  - destruct (shop_product_save _ w1) as [[e|[msgs|]] w2]; simpl;
      eexists _, _; by rewrite <- app_assoc.
  - by eexists _, _.
Qed.

(** X20. [deactivate_product] never raises and shows nothing. It asks for
    the product once and, if it finds one, saves it once with the given
    status and with its id and its variants as they were found; it saves
    no variant. *)
Theorem deactivate_product_calls product_id status (s : St (W * list admin_call)) :
  ∃ msg s',
    deactivate_product product_id status s = (Ret msg, s') ∧
    trace s' = trace s ∧ session s' = session s ∧
    (new_calls s s' = [CallFind product_id] ∨
     ∃ p q,
       (shop_find product_id (world s).1).1 = inr (Some p) ∧
       new_calls s s' = [CallFind product_id; CallProductSave q] ∧
       rp_status q = status ∧ rp_id q = rp_id p ∧ rp_variants q = rp_variants p).
Proof.
  destruct (deactivate_product_shape product_id status s) as (msg & w' & Hrun).
  eexists msg, _. split; [exact Hrun|]. unfold new_calls, calls. simpl.
  rewrite drop_app_length. split; [done|]. split; [done|].
  destruct (shop_find product_id (world s).1).1 as [e|[p|]]; [by left| |by left].
  right. by exists p, (set_status status p).
Qed.

(** X21. When the platform finds no product, or raises on the request,
    neither function saves anything. [update_product_price] and
    [deactivate_product] return the same "not found" message in the first
    case, and the message of the exception after their own prefix in the
    second. *)
Theorem nothing_found_nothing_saved product_id new_price status (s : St (W * list admin_call)) r w1 :
  shop_find product_id (world s).1 = (r, w1) →
  (∀ p, r ≠ inr (Some p)) →
  ∃ m1 m2,
    update_product_price product_id new_price s
      = (Ret m1, mkSt (w1, calls s ++ [CallFind product_id]) (trace s) (session s)) ∧
    deactivate_product product_id status s
      = (Ret m2, mkSt (w1, calls s ++ [CallFind product_id]) (trace s) (session s)) ∧
    match r with
    | inl e => m1 = "Error: " +:+ exn_msg e ∧
               m2 = "Error while updating product status: " +:+ exn_msg e
    | inr _ => m1 = not_found_message product_id ∧ m2 = not_found_message product_id
    end.
Proof.
  intros Hfind Hr.
  unfold update_product_price, deactivate_product, try_except, bind, invoke,
    any_exception, calls, ret, not_found_message.
  rewrite Hfind. destruct r as [e|[p|]]; simpl.
  - by eexists _, _.
  - by destruct (Hr p).
  - by eexists _, _.
Qed.
End AdminFacts.

(** * Instances of the theorems in the example world *)

Import Demo.

(** The three costs of [df3] are 10, missing and 0: the prices are 14,
    missing and 0. *)
Example selling_price_of_missing_and_zero :
  df_col Demo.df3 "€ Price inc. shipping"
    = Some [PyFloat 10%float; PyFloat nan; PyFloat 0%float] ∧
  df_col Demo.scraped3 "Selling Price"
    = Some [PyFloat 14%float; PyFloat nan; PyFloat 0%float].
Proof. split; reflexivity. Qed.



Lemma details_without_containers_witness :
  ∃ d img s',
    fetch_product_details "https://www.deloox.se/bare" (Demo.start Demo.world0)
      = (Ret (d, img), s') ∧
    (find Demo.bare_page (DivId "dx-description-container") = None → d = Some "") ∧
    (find Demo.bare_page (DivClass "dx_product-image__container") = None ∨
     (∃ c, find Demo.bare_page (DivClass "dx_product-image__container") = Some c ∧
           find c ImgTag = None) →
     img = None).
Proof.
  apply (@details_without_containers _ demo_web demo_parser
           "https://www.deloox.se/bare"
           (Demo.start Demo.world0) "detail:bare" Demo.world0 Demo.bare_page).
  - reflexivity.
  - reflexivity.
Defined.

(** The arguments of the upload of row 1 of [scraped3]: no description, no
    price, no image, no inventory. *)
Lemma row1_ready :
  row_ready Demo.scraped3 1 (PyStr "Oud") (PyStr "") 0%float (PyStr "") "222" 0.
Proof.
  exists PyNone, (PyFloat nan), PyNone, (PyInt 222), (PyFloat nan).
  repeat split; reflexivity.
Qed.


Lemma no_location_fails_after_creation_witness :
  upload_product (PyStr "Rose") (PyStr "D1") 14%float (PyStr "I1") "111" 5
    (Demo.start Demo.world_noloc) =
  (Ret (false, None, ErrText "No locations found for inventory."),
   mkSt (Demo.mkWorld (Demo.site Demo.world0) [] [] [] 9001)
        ([] ++ [EvProductSave (build_product (PyStr "Rose") (PyStr "D1") 14%float (PyStr "I1") "111");
                EvLocationFind])
        None).
Proof.
  apply (no_location_fails_after_creation (PyStr "Rose") (PyStr "D1") 14%float (PyStr "I1")
           "111" 5 (Demo.start Demo.world_noloc) 9000 10000 []
           (Demo.mkWorld (Demo.site Demo.world0) [] [] [] 9001)).
  - reflexivity.
  - reflexivity.
Defined.

(** An exception raised by [product.save()] comes back as a failure. *)
Example upload_product_catches_connection_error :
  (upload_product (PyStr "Rose") (PyStr "D1") 14%float (PyStr "I1") "111" 5
     (Demo.start Demo.world_broken)).1
  = Ret (false, None, ErrText "Connection reset by peer").
Proof. reflexivity. Qed.

Lemma missing_image_uploads_without_image_witness :
  pd_isna PyNone = true ∧
  PyStr "" = PyStr "" ∧
  (∀ n d p (r k : string),
      images (build_product n d p (PyStr r) k)
      = if String.eqb r "" then [] else [mkImage (PyStr r)]) ∧
  ∃ p evs s',
    upload_row Demo.scraped3 1 (mkSt Demo.world0 [] (Some Demo.pending3)) = (Ret tt, s') ∧
    new_events (mkSt Demo.world0 [] (Some Demo.pending3)) s' = EvProductSave p :: evs ∧
    p = build_product (PyStr "Oud") (PyStr "") 0%float (PyStr "") "222" ∧
    images p = [].
Proof.
  split; [reflexivity|].
  apply (missing_image_uploads_without_image Demo.scraped3 1
           (mkSt Demo.world0 [] (Some Demo.pending3)) Demo.pending3
           (PyStr "Oud") (PyStr "") 0%float (PyStr "") "222" 0 PyNone).
  - exact row1_ready.
  - reflexivity.
  - reflexivity.
  - reflexivity.
Defined.


(** C9 at a row whose identifier has a leading space, in a text column as
    [read_csv] delivers it; the web site is static, and its search finds the
    product for "111" and nothing for " 111". The source scrapes the row
    with the link found for the stripped identifier and then writes the
    result of a second, unstripped lookup into "Link"; with one lookup per
    row the "Link" cell holds the link that was scraped. *)
Lemma link_column_lookup_not_stripped :
  read_csv (to_csv Demo.df_space) = inr Demo.df_space ∧
  ∃ df1 s1 df2 s2,
    phase1 Demo.df_space (Demo.start Demo.world0) = (Ret df1, s1) ∧
    phase1_single_lookup Demo.df_space (Demo.start Demo.world0) = (Ret df2, s2) ∧
    df_cell df1 0 "Description" = Some (PyStr "D1") ∧
    df_cell df1 0 "Link" = Some PyNone ∧
    df_cell df2 0 "Link" = Some (PyStr "https://www.deloox.se/p1") ∧
    df1 ≠ df2.
Proof.
  split; [vm_compute; reflexivity|].
  eexists _, _, _, _.
  split; [vm_compute; reflexivity|]. split; [vm_compute; reflexivity|].
  split; [reflexivity|]. split; [reflexivity|]. split; [reflexivity|].
  intros Heq. apply (f_equal (λ d, df_cell d 0 "Link")) in Heq. discriminate Heq.
Qed.

(** C7 as stated fails: the file has every required column, and the upload
    run is aborted by the inventory cell "abc" of the second row. The first
    row was uploaded, the third never is, and the session is not closed. *)
Lemma bad_inventory_aborts_upload :
  read_csv (to_csv Demo.df_bad) = inr Demo.df_bad ∧
  missing_cols Demo.df_bad = [] ∧
  ∃ s1 e s2 sess,
    main (mkUI "shop.example" "2024-01" "token" (Some (to_csv Demo.df_bad)) true false)
         (Demo.start Demo.world0) = (Ret tt, s1) ∧
    main (mkUI "shop.example" "2024-01" "token" (Some (to_csv Demo.df_bad)) false true) s1
      = (Raise e, s2) ∧
    e = Exn ValueError "invalid literal for int() with base 10: 'abc'" ∧
    saves (new_events s1 s2) = 1%nat ∧
    session s2 = Some sess ∧
    df_cell sess 0 "Upload Status" = Some (PyStr "Active") ∧
    df_cell sess 2 "Upload Status" = Some (PyStr "Pending") ∧
    existsb is_session_clear (trace s2) = false.
Proof.
  split; [vm_compute; reflexivity|]. split; [reflexivity|].
  eexists _, _, _, _.
  split; [vm_compute; reflexivity|].
  split; [vm_compute; reflexivity|].
  split; [reflexivity|]. split; [reflexivity|]. split; [reflexivity|].
  split; [reflexivity|]. split; [reflexivity|]. reflexivity.
Qed.

Lemma scraped3_ready : rows_ready Demo.scraped3.
Proof.
  intros i Hi. simpl in Hi.
  destruct i as [|[|[|i]]]; [| | |lia].
  - exists (PyStr "Rose"), (PyStr "D1"), 14%float, (PyStr "I1"), "111", 5.
    exists (PyStr "D1"), (PyFloat 14%float), (PyStr "I1"), (PyInt 111), (PyFloat 5%float).
    repeat split; reflexivity.
  - exists (PyStr "Oud"), (PyStr ""), 0%float, (PyStr ""), "222", 0. exact row1_ready.
  - exists (PyStr "Musk"), (PyStr ""), 0%float, (PyStr ""), "333", 2.
    exists PyNone, (PyFloat 0%float), PyNone, (PyInt 333), (PyFloat 2%float).
    repeat split; reflexivity.
Qed.

Lemma run_aborts_only_on_bad_input_witness :
  main (mkUI "shop.example" "2024-01" "token" (Some (to_csv Demo.df_nobrand)) true false)
       (Demo.start Demo.world0)
    = (Ret tt,
       mkSt Demo.world0 ([] ++ [EvError "Missing columns: ['Brand', 'Inventory']"]) None) ∧
  (∃ df' s',
     main (mkUI "shop.example" "2024-01" "token" (Some (to_csv Demo.df3)) true false)
          (Demo.start Demo.world0) = (Ret tt, s') ∧
     session s' = Some df' ∧ nrows df' = nrows Demo.df3) ∧
  (∃ sess' s',
     main (mkUI "shop.example" "2024-01" "token" (Some (to_csv Demo.df3)) false true)
          (mkSt Demo.world0 [] (Some Demo.scraped3)) = (Ret tt, s') ∧
     session s' = Some sess' ∧
     ∀ i, (i < nrows Demo.scraped3)%nat →
          status_recorded (df_cell sess' i "Upload Status")).
Proof.
  split; [|split].
  - apply (run_aborts_only_on_bad_input
             (mkUI "shop.example" "2024-01" "token" (Some (to_csv Demo.df_nobrand)) true false)
             (to_csv Demo.df_nobrand) Demo.df_nobrand (Demo.start Demo.world0) eq_refl).
    + vm_compute. reflexivity.
    + discriminate.
  - apply (run_aborts_only_on_bad_input
             (mkUI "shop.example" "2024-01" "token" (Some (to_csv Demo.df3)) true false)
             (to_csv Demo.df3) Demo.df3 (Demo.start Demo.world0) eq_refl).
    + vm_compute. reflexivity.
    + reflexivity.
    + repeat constructor.
    + eexists. split; [reflexivity|]. repeat constructor; by eexists.
    + reflexivity.
    + reflexivity.
  - apply (run_aborts_only_on_bad_input
             (mkUI "shop.example" "2024-01" "token" (Some (to_csv Demo.df3)) false true)
             (to_csv Demo.df3) Demo.df3 (mkSt Demo.world0 [] (Some Demo.scraped3))
             eq_refl).
    + vm_compute. reflexivity.
    + reflexivity.
    + reflexivity.
    + reflexivity.
    + reflexivity.
    + repeat constructor.
    + exact scraped3_ready.
Defined.



(** ** Instances of the further properties *)

#[local] Existing Instance DemoAdmin.demo_admin.

(** No page answers the search for "999". *)
Lemma fetch_product_link_failure_witness :
  ∃ text,
    fetch_product_link "999" (Demo.start Demo.world0) =
      (Ret None,
       mkSt Demo.world0
            ([] ++ [EvFetchLink "999"; EvHttpGet (search_endpoint "999");
                    EvWarning (text +:+ "999" +:+ ": " +:+
                               "404 Client Error: Not Found for url: https://www.deloox.se/api/search?keyword=999")])
            None) ∧
    (text = "Error fetching data for GTIN " ∨ text = "Error parsing response for GTIN ").
Proof.
  apply (@fetch_product_link_failure _ demo_web demo_parser "999" (Demo.start Demo.world0)
           "404 Client Error: Not Found for url: https://www.deloox.se/api/search?keyword=999"
           Demo.world0).
  left. reflexivity.
Defined.

(** The search for "222" answers with a page without suggestions. *)
Lemma fetch_product_link_no_match_witness :
  fetch_product_link "222" (Demo.start Demo.world0) =
    (Ret None,
     mkSt Demo.world0 ([] ++ [EvFetchLink "222"; EvHttpGet (search_endpoint "222")]) None).
Proof.
  apply (@fetch_product_link_no_match _ demo_web demo_parser "222" (Demo.start Demo.world0)
           "search:none" Demo.world0 (Demo.doc [])).
  - reflexivity.
  - reflexivity.
  - left. reflexivity.
Defined.

(** The detail page of the third product times out. *)
Lemma fetch_product_details_failure_witness :
  ∃ text,
    fetch_product_details "https://www.deloox.se/p3" (Demo.start Demo.world0) =
      (Ret (None, None),
       mkSt Demo.world0
            ([] ++ [EvFetchDetails "https://www.deloox.se/p3";
                    EvHttpGet "https://www.deloox.se/p3";
                    EvWarning (text +:+ "https://www.deloox.se/p3" +:+ ": " +:+
                               "Read timed out.")])
            None) ∧
    (text = "Error fetching product details for URL " ∨
     text = "Error parsing product details for URL ").
Proof.
  apply (@fetch_product_details_failure _ demo_web demo_parser "https://www.deloox.se/p3"
           (Demo.start Demo.world0) "Read timed out." Demo.world0).
  left. reflexivity.
Defined.

Lemma phase1_requests_and_sleeps_witness :
  ∃ df' s',
    phase1 Demo.df3 (Demo.start Demo.world0) = (Ret df', s') ∧
    count_events is_sleep (new_events (Demo.start Demo.world0) s') = nrows Demo.df3 ∧
    (2 * nrows Demo.df3 ≤ count_events is_http_get (new_events (Demo.start Demo.world0) s')
     ≤ 3 * nrows Demo.df3)%nat ∧
    count_events is_shop_event (new_events (Demo.start Demo.world0) s') = 0%nat ∧
    session s' = session (Demo.start Demo.world0).
Proof.
  apply (phase1_requests_and_sleeps Demo.df3 (Demo.start Demo.world0)).
  - repeat constructor.
  - reflexivity.
  - eexists. split; [reflexivity|]. repeat constructor; by eexists.
Defined.

Lemma phase1_keeps_input_columns_witness :
  ∃ df' s',
    phase1 Demo.df3 (Demo.start Demo.world0) = (Ret df', s') ∧
    df_wf df' ∧ nrows df' = nrows Demo.df3 ∧
    (∀ c, c ∉ derived_cols → df_col df' c = df_col Demo.df3 c) ∧
    (∀ c, c ∈ derived_cols → ∃ l, df_col df' c = Some l ∧ length l = nrows Demo.df3) ∧
    ((∀ c, c ∈ derived_cols → has_column Demo.df3 c = false) →
     df_columns df' = df_columns Demo.df3 ++ derived_cols).
Proof.
  apply (phase1_keeps_input_columns Demo.df3 (Demo.start Demo.world0)).
  - repeat constructor.
  - reflexivity.
  - eexists. split; [reflexivity|]. repeat constructor; by eexists.
Defined.


Lemma upload_product_success_witness :
  upload_product (PyStr "Rose") (PyStr "D1") 14%float (PyStr "I1") "111" 5
    (Demo.start Demo.world0) =
  (Ret (true, Some 9000, ErrNone),
   mkSt (Demo.mkWorld (Demo.site Demo.world0) [("222", ["title required"])] [] [7] 9001)
        ([] ++ [EvProductSave (build_product (PyStr "Rose") (PyStr "D1") 14%float
                                 (PyStr "I1") "111");
                EvLocationFind; EvInventorySet 7 10000 5])
        None).
Proof.
  apply (upload_product_success (PyStr "Rose") (PyStr "D1") 14%float (PyStr "I1") "111" 5
           (Demo.start Demo.world0) 9000 10000 [] 7 []
           (Demo.mkWorld (Demo.site Demo.world0) [("222", ["title required"])] [] [7] 9001)
           (Demo.mkWorld (Demo.site Demo.world0) [("222", ["title required"])] [] [7] 9001)
           (Demo.mkWorld (Demo.site Demo.world0) [("222", ["title required"])] [] [7] 9001)).
  - reflexivity.
  - reflexivity.
  - reflexivity.
Defined.

(** The arguments of the upload of row 0 of [scraped3]. *)
Lemma row0_ready :
  row_ready Demo.scraped3 0 (PyStr "Rose") (PyStr "D1") 14%float (PyStr "I1") "111" 5.
Proof.
  exists (PyStr "D1"), (PyFloat 14%float), (PyStr "I1"), (PyInt 111), (PyFloat 5%float).
  repeat split; reflexivity.
Qed.

(** Row 0 in a shop without location: the product is created, the upload
    fails. *)
Lemma failed_upload_is_recorded_witness :
  ∃ sess' s',
    upload_row Demo.scraped3 0 (mkSt Demo.world_noloc [] (Some Demo.pending3)) = (Ret tt, s') ∧
    session s' = Some sess' ∧
    df_cell sess' 0 "Upload Status"
      = Some (PyStr ("Failed: " +:+ error_str (ErrText "No locations found for inventory."))) ∧
    (∀ j c, j ≠ 0%nat ∨ c ≠ "Upload Status" → df_cell sess' j c = df_cell Demo.pending3 j c) ∧
    last (trace s')
      = Some (EvLogError ("Failed to upload product " +:+ py_str (PyStr "Rose") +:+ ": "
                          +:+ error_str (ErrText "No locations found for inventory."))).
Proof.
  apply (failed_upload_is_recorded Demo.scraped3 0
           (mkSt Demo.world_noloc [] (Some Demo.pending3)) Demo.pending3
           (PyStr "Rose") (PyStr "D1") 14%float (PyStr "I1") "111" 5 None
           (ErrText "No locations found for inventory.")).
  - exact row0_ready.
  - reflexivity.
  - by eexists.
  - reflexivity.
Defined.


Lemma phase2_session_bracket_witness :
  ∃ evs s' sess',
    phase2 "shop.example" "2024-01" "token" (mkSt Demo.world0 [] (Some Demo.scraped3))
      = (Ret tt, s') ∧
    session s' = Some sess' ∧
    new_events (mkSt Demo.world0 [] (Some Demo.scraped3)) s'
      = EvSessionActivate "shop.example" "2024-01" "token"
        :: evs ++ [EvSessionClear; EvDownload "uploaded_data.csv" (to_csv sess')] ∧
    saves evs = nrows Demo.scraped3 ∧
    count_events is_destroy evs = 0%nat ∧
    count_events is_session_event evs = 0%nat.
Proof.
  apply (phase2_session_bracket "shop.example" "2024-01" "token"
           (mkSt Demo.world0 [] (Some Demo.scraped3)) Demo.scraped3).
  - reflexivity.
  - exact scraped3_ready.
Defined.

Lemma phase2_touches_result_columns_only_witness :
  ∃ s' sess',
    phase2 "shop.example" "2024-01" "token" (mkSt Demo.world0 [] (Some Demo.scraped3))
      = (Ret tt, s') ∧
    session s' = Some sess' ∧
    ∀ i c, c ≠ "Product ID" → c ≠ "Upload Status" →
           df_cell sess' i c = df_cell Demo.scraped3 i c.
Proof.
  apply (phase2_touches_result_columns_only "shop.example" "2024-01" "token"
           (mkSt Demo.world0 [] (Some Demo.scraped3)) Demo.scraped3).
  - reflexivity.
  - repeat constructor.
  - exact scraped3_ready.
Defined.

(** The costs of [df_comma] are text. *)
Lemma scrape_run_fails_on_text_cost_witness :
  ∃ e s',
    main (mkUI "shop.example" "2024-01" "token" (Some (to_csv df_comma)) true false)
         (Demo.start Demo.world0) = (Ret tt, s') ∧
    exn_cls e = TypeError ∧
    last (trace s') = Some (EvError ("Error reading or processing file: " +:+ exn_msg e)) ∧
    lookups (new_events (Demo.start Demo.world0) s') = (2 * nrows df_comma)%nat ∧
    session s' = session (Demo.start Demo.world0).
Proof.
  apply (scrape_run_fails_on_text_cost
           (mkUI "shop.example" "2024-01" "token" (Some (to_csv df_comma)) true false)
           (to_csv df_comma) df_comma [PyStr "10,50"; PyStr "12,00"]
           (Demo.start Demo.world0)).
  - reflexivity.
  - vm_compute. reflexivity.
  - repeat constructor.
  - reflexivity.
  - reflexivity.
  - constructor. reflexivity.
  - reflexivity.
  - reflexivity.
Defined.

(** An uploaded file without a header line cannot be read; the upload run
    works on the table of the session all the same. *)
Lemma upload_run_ignores_file_witness :
  ∃ pre,
    main (mkUI "shop.example" "2024-01" "token" (Some (mkCsv [] [])) false true)
         (mkSt Demo.world0 [] (Some Demo.scraped3))
      = phase2 "shop.example" "2024-01" "token"
               (mkSt Demo.world0 ([] ++ pre) (Some Demo.scraped3)) ∧
    (pre = [] ∨
     ∃ file e, Some (mkCsv [] []) = Some file ∧ read_csv file = inl e ∧
               pre = [EvError ("Error reading or processing file: " +:+ exn_msg e)]).
Proof.
  apply (upload_run_ignores_file
           (mkUI "shop.example" "2024-01" "token" (Some (mkCsv [] [])) false true)
           (mkSt Demo.world0 [] (Some Demo.scraped3)) Demo.scraped3).
  - reflexivity.
  - reflexivity.
  - reflexivity.
  - intros file df [= <-] Hread. vm_compute in Hread. discriminate Hread.
Defined.

(** The file of [df3], scraped and then uploaded in [world0]. *)
Lemma scrape_then_upload_completes_witness :
  ∃ s1 s2 sess,
    main (mkUI "shop.example" "2024-01" "token" (Some (to_csv Demo.df3)) true false)
         (Demo.start Demo.world0) = (Ret tt, s1) ∧
    main (mkUI "shop.example" "2024-01" "token" (Some (to_csv Demo.df3)) false true) s1
      = (Ret tt, s2) ∧
    session s2 = Some sess ∧
    ∀ i, (i < nrows Demo.df3)%nat →
      status_recorded (df_cell sess i "Upload Status") ∧
      df_cell sess i "GTIN" = df_cell Demo.df3 i "GTIN".
Proof.
  apply (scrape_then_upload_completes
           (mkUI "shop.example" "2024-01" "token" (Some (to_csv Demo.df3)) true false)
           (mkUI "shop.example" "2024-01" "token" (Some (to_csv Demo.df3)) false true)
           (to_csv Demo.df3) Demo.df3 (Demo.start Demo.world0)).
  - reflexivity.
  - reflexivity.
  - vm_compute. reflexivity.
  - reflexivity.
  - eexists. split; [reflexivity|]. repeat constructor; by eexists.
  - intros i v Hv. destruct i as [|[|[|i]]]; simpl in Hv; inversion Hv; subst v.
    + right. eexists. vm_compute. reflexivity.
    + left. reflexivity.
    + right. eexists. vm_compute. reflexivity.
  - reflexivity.
  - reflexivity.
  - reflexivity.
  - reflexivity.
Defined.

(** A negative price: every save of a variant is refused, the product is
    saved, and the message reports success. *)
Lemma update_product_price_message_witness :
  ∃ s',
    update_product_price (PyInt 9000) (PyInt (-1)) (DemoAdmin.start DemoAdmin.shop0)
      = (Ret "Price updated successfully to -1 for product ID 9000.", s') ∧
    new_calls (DemoAdmin.start DemoAdmin.shop0) s'
      = CallFind (PyInt 9000) :: variant_saves "-1" (rp_variants DemoAdmin.rose)
        ++ [CallProductSave
              (with_variants (map (set_price "-1") (rp_variants DemoAdmin.rose))
                             DemoAdmin.rose)].
Proof.
  eapply (update_product_price_message (PyInt 9000) (PyInt (-1))
            (DemoAdmin.start DemoAdmin.shop0) DemoAdmin.rose _
            (map (set_price "-1") (rp_variants DemoAdmin.rose)) _ None _).
  - reflexivity.
  - vm_compute. reflexivity.
  - reflexivity.
Defined.

(** The second variant cannot be saved: the first stays saved, the third
    and the product are not saved. *)
Lemma update_product_price_stops_at_exception_witness :
  ∃ s',
    update_product_price (PyInt 9000) (PyFloat 20%float) (DemoAdmin.start DemoAdmin.shop_locked)
      = (Ret ("Error: " +:+ "Too Many Requests"), s') ∧
    new_calls (DemoAdmin.start DemoAdmin.shop_locked) s'
      = CallFind (PyInt 9000)
        :: variant_saves (py_str (PyFloat 20%float))
                         ([mkRemoteVariant 1 "14.0"] ++ [mkRemoteVariant 2 "15.0"]).
Proof.
  eapply (update_product_price_stops_at_exception (PyInt 9000) (PyFloat 20%float)
            (DemoAdmin.start DemoAdmin.shop_locked) DemoAdmin.rose _
            [mkRemoteVariant 1 "14.0"] (mkRemoteVariant 2 "15.0") [mkRemoteVariant 3 "16.0"]
            _ _ (Exn OtherException "Too Many Requests") _).
  - reflexivity.
  - reflexivity.
  - vm_compute. reflexivity.
  - vm_compute. reflexivity.
Defined.

(** A shop without products asked for no id in particular, and a shop asked
    for an id that it does not have. *)
Lemma nothing_found_nothing_saved_witness :
  (∃ m1 m2,
     update_product_price PyNone (PyInt 20) (DemoAdmin.start DemoAdmin.shop_empty)
       = (Ret m1, mkSt (DemoAdmin.mkWorld [] [] 1, [] ++ [CallFind PyNone]) [] None) ∧
     deactivate_product PyNone default_status (DemoAdmin.start DemoAdmin.shop_empty)
       = (Ret m2, mkSt (DemoAdmin.mkWorld [] [] 1, [] ++ [CallFind PyNone]) [] None) ∧
     m1 = not_found_message PyNone ∧ m2 = not_found_message PyNone) ∧
  (∃ m1 m2,
     update_product_price (PyInt 1) (PyInt 20) (DemoAdmin.start DemoAdmin.shop0)
       = (Ret m1, mkSt (DemoAdmin.mkWorld [DemoAdmin.rose] [] 1, [] ++ [CallFind (PyInt 1)])
                       [] None) ∧
     deactivate_product (PyInt 1) default_status (DemoAdmin.start DemoAdmin.shop0)
       = (Ret m2, mkSt (DemoAdmin.mkWorld [DemoAdmin.rose] [] 1, [] ++ [CallFind (PyInt 1)])
                       [] None) ∧
     m1 = "Error: " +:+ "Not Found" ∧
     m2 = "Error while updating product status: " +:+ "Not Found").
Proof.
  split.
  - apply (nothing_found_nothing_saved PyNone (PyInt 20) default_status
             (DemoAdmin.start DemoAdmin.shop_empty) (inr None) (DemoAdmin.mkWorld [] [] 1)).
    + reflexivity.
    + intros p. discriminate.
  - apply (nothing_found_nothing_saved (PyInt 1) (PyInt 20) default_status
             (DemoAdmin.start DemoAdmin.shop0)
             (inl (Exn OtherException "Not Found"))
             (DemoAdmin.mkWorld [DemoAdmin.rose] [] 1)).
    + reflexivity.
    + intros p. discriminate.
Defined.
